(** * The kernel websocket gateway of jupyter_server

    A shallow embedding of
    [jupyter_server/services/kernels/websocket.py]
    (class [KernelWebsocketHandler]) and the properties of its admission
    gate, sub-protocol negotiation, message interception and teardown.

    Python values are modelled as data, Python exceptions as the [Raise]
    branch of a result type, attribute writes on [self] as explicit state
    passing over a [handler] record, and calls into collaborators
    (logger, authorizer, kernel manager, connection object) as entries of
    an effect log carried by the handler. *)

From Stdlib Require Import ZArith String Ascii List Bool.
From stdpp Require Import base option list strings gmap pretty.

#[local] Set Warnings "-register-all".
Local Open Scope string_scope.
Local Open Scope Z_scope.

(** ** Exceptions and results *)

(** The exception classes that can travel through the handler.  All of
    them derive from Python's [Exception]. *)
Inductive exn : Type :=
| HTTPError (status_code : Z)        (* tornado.web.HTTPError *)
| AttributeError                     (* e.g. 'NoneType' object has no attribute ... *)
| KeyError
| TypeError
| JSONDecodeError                    (* json.loads on malformed text *)
| LibraryError (name : string).      (* any other Exception of a callee: RecursionError, ... *)

Inductive result (A : Type) : Type :=
| Ok (a : A)
| Raise (e : exn).
Arguments Ok {A} a.
Arguments Raise {A} e.

#[global] Instance result_ret : MRet result := fun A a => Ok a.
#[global] Instance result_bind : MBind result := fun A B f r =>
  match r with
  | Ok a => f a
  | Raise e => Raise e
  end.

(** ** Python values produced by [json.loads] *)

(** A float is carried as the text [float.__repr__] gives for it
    ([inf], [-inf] and [nan] included): that text is the only thing this
    program ever observes of a float.  A [dict] is an association list in
    insertion order. *)
Inductive value : Type :=
| JNull                                   (* None *)
| JBool (b : bool)                        (* True / False *)
| JInt (n : Z)                            (* int *)
| JFloat (repr : string)                  (* float *)
| JStr (s : string)                       (* str *)
| JArr (items : list value)               (* list *)
| JObj (fields : list (string * value)).  (* dict with str keys *)

(** [d.get(key)] on the association list: the value bound to [key]. *)
Fixpoint dict_get (key : string) (d : list (string * value)) : option value :=
  match d with
  | [] => None
  | (k, v) :: rest => if String.eqb k key then Some v else dict_get key rest
  end.

(** [d[key] = v]: an existing key keeps its position, a new key goes last. *)
Fixpoint dict_set (key : string) (v : value) (d : list (string * value))
  : list (string * value) :=
  match d with
  | [] => [(key, v)]
  | (k, w) :: rest =>
      if String.eqb k key then (k, v) :: rest else (k, w) :: dict_set key v rest
  end.

(** [recv.get(key, dflt)]: only a dict has the method. *)
Definition py_get (recv : value) (key : string) (dflt : value) : result value :=
  match recv with
  | JObj d => Ok (default dflt (dict_get key d))
  | _ => Raise AttributeError
  end.

(** [recv[key]] with a str key: a missing key is a KeyError, a receiver
    that is no dict a TypeError (list and str want integer indices, the
    others are not subscriptable). *)
Definition py_getitem (recv : value) (key : string) : result value :=
  match recv with
  | JObj d => match dict_get key d with
              | Some v => Ok v
              | None => Raise KeyError
              end
  | _ => Raise TypeError
  end.

(** [recv[key] = v], giving the receiver after the store. *)
Definition py_setitem (recv : value) (key : string) (v : value) : result value :=
  match recv with
  | JObj d => Ok (JObj (dict_set key v d))
  | _ => Raise TypeError
  end.

(** [holder] once the object it holds under [key] has become [new]: the
    store into [holder[key]] mutates that object in place, and [holder]
    shows it where it was. *)
Definition mutated_at (key : string) (new : value) (holder : value) : value :=
  match holder with
  | JObj d => JObj (dict_set key new d)
  | _ => holder
  end.

(** [v == s] for a str [s]: no other type compares equal to a str. *)
Definition py_eq_str (v : value) (s : string) : bool :=
  match v with
  | JStr t => String.eqb t s
  | _ => false
  end.

(** [v is not None]. *)
Definition is_not_None (v : value) : bool :=
  match v with
  | JNull => false
  | _ => true
  end.

(** ** Frames *)

(** What tornado hands to [on_message]: a [str] for a text frame, [bytes]
    for a binary one.  A str is carried as its UTF-8 bytes. *)
Inductive frame : Type :=
| Text (s : string)
| Binary (b : list Byte.byte).

(** ** The message rewrite of [on_message] *)

Definition DEFAULT_PROTOCOL : string := "v1.kernel.websocket.jupyter.org".
Definition TOKEN_HEADER : string := "X-Forwarded-Access-Token".

Section Interceptor.

(** The Python runtime the handler calls into: the [json] codec, and
    [repr] of a list or dict (what an f-string field renders for
    them). *)
Variable json_loads : string -> result value.
Variable json_dumps : value -> result string.
Variable repr_container : value -> result string.

(** A replacement field [{v}] of an f-string: [format(v, '')], which is
    [str(v)] for every value here. *)
Definition py_format (v : value) : result string :=
  match v with
  | JNull => Ok "None"
  | JBool true => Ok "True"
  | JBool false => Ok "False"
  | JInt n => Ok (pretty n)
  | JFloat r => Ok r
  | JStr s => Ok s
  | JArr _ | JObj _ => repr_container v
  end.

(** [headers.get(name)]: the header's value, or None. *)
Definition headers_get (headers : gmap string string) (name : string) : value :=
  match headers !! name with
  | Some v => JStr v
  | None => JNull
  end.

(** The body of the [try] block (lines 82-88), from the frame text to
    the text that replaces it. *)
Definition rewrite_text (headers : gmap string string) (ws_message : string)
  : result string :=
  message ← json_loads ws_message;
  header ← py_get message "header" (JObj []);
  msg_type ← py_get header "msg_type" JNull;
  let is_execute_request := py_eq_str msg_type "execute_request" in
  message ←
    (if is_execute_request then
       content ← py_get message "content" (JObj []);
       code ← py_get content "code" JNull;
       if is_not_None code then
         token ← py_format (headers_get headers TOKEN_HEADER);
         content ← py_getitem message "content";
         code ← py_getitem content "code";
         code ← py_format code;
         let new_code :=
           "import os" +:+ String "010" "os.environ['FORWARDED_ACCESS_TOKEN'] = "
             +:+ "'" +:+ token +:+ "'" +:+ String "010" "" +:+ code in
         content ← py_getitem message "content";
         content ← py_setitem content "code" (JStr new_code);
         Ok (mutated_at "content" content message)
       else Ok message
     else Ok message);
  json_dumps message.

(** Lines 80-90: the frame that reaches [handle_incoming_message].
    [except Exception: pass] leaves [ws_message] as it was. *)
Definition intercept (headers : gmap string string) (ws_message : frame) : frame :=
  match ws_message with
  | Text s =>
      match rewrite_text headers s with
      | Ok s' => Text s'
      | Raise _ => Text s
      end
  | Binary _ => ws_message
  end.

End Interceptor.

(** ** Request arguments

    [self.request.arguments] maps a name to the values given for it,
    each a byte string.  tornado's [get_argument] decodes every value of
    the name as UTF-8 (HTTPError 400 when one of them is not valid),
    replaces the control characters U+0000-U+0008 and U+000E-U+001F by a
    space, strips white space off both ends, and answers with the last
    value. *)

Definition byte_value (c : ascii) : Z := Z.of_N (N_of_ascii c).
Definition byte_of_value (n : Z) : ascii := ascii_of_N (Z.to_N n).

(** The six bits a continuation byte carries. *)
Definition continuation (c : ascii) : option Z :=
  if (128 <=? byte_value c) && (byte_value c <=? 191)
  then Some (byte_value c - 128)
  else None.

(** [value.decode("utf-8")]: the code points of a byte string, None
    where Python raises UnicodeDecodeError (a stray or missing
    continuation byte, an overlong form, a surrogate, a code point above
    U+10FFFF). *)
Fixpoint utf8_code_points (s : string) : option (list Z) :=
  match s with
  | "" => Some []
  | String c0 rest =>
      let b0 := byte_value c0 in
      if b0 <? 128 then
        cps ← utf8_code_points rest; Some (b0 :: cps)
      else if (194 <=? b0) && (b0 <=? 223) then
        match rest with
        | String c1 rest =>
            x1 ← continuation c1;
            cps ← utf8_code_points rest;
            Some (((b0 - 192) * 64 + x1) :: cps)
        | _ => None
        end
      else if (224 <=? b0) && (b0 <=? 239) then
        match rest with
        | String c1 (String c2 rest) =>
            x1 ← continuation c1;
            x2 ← continuation c2;
            let cp := (b0 - 224) * 4096 + x1 * 64 + x2 in
            if (cp <? 2048) || ((55296 <=? cp) && (cp <=? 57343)) then None else
            cps ← utf8_code_points rest;
            Some (cp :: cps)
        | _ => None
        end
      else if (240 <=? b0) && (b0 <=? 244) then
        match rest with
        | String c1 (String c2 (String c3 rest)) =>
            x1 ← continuation c1;
            x2 ← continuation c2;
            x3 ← continuation c3;
            let cp := (b0 - 240) * 262144 + x1 * 4096 + x2 * 64 + x3 in
            if (cp <? 65536) || (1114111 <? cp) then None else
            cps ← utf8_code_points rest;
            Some (cp :: cps)
        | _ => None
        end
      else None
  end.

(** A str, carried as its UTF-8 bytes. *)
Definition utf8_bytes (cp : Z) : string :=
  if cp <? 128 then String (byte_of_value cp) ""
  else if cp <? 2048 then
    String (byte_of_value (192 + cp / 64))
      (String (byte_of_value (128 + cp mod 64)) "")
  else if cp <? 65536 then
    String (byte_of_value (224 + cp / 4096))
      (String (byte_of_value (128 + (cp / 64) mod 64))
         (String (byte_of_value (128 + cp mod 64)) ""))
  else
    String (byte_of_value (240 + cp / 262144))
      (String (byte_of_value (128 + (cp / 4096) mod 64))
         (String (byte_of_value (128 + (cp / 64) mod 64))
            (String (byte_of_value (128 + cp mod 64)) ""))).

Definition utf8_string (cps : list Z) : string :=
  fold_right (fun cp s => utf8_bytes cp +:+ s) "" cps.

(** [_remove_control_chars_regex.sub(" ", s)] for the class
    [[\x00-\x08\x0e-\x1f]]. *)
Definition is_control_char (cp : Z) : bool :=
  ((0 <=? cp) && (cp <=? 8)) || ((14 <=? cp) && (cp <=? 31)).

Definition remove_control_chars (cps : list Z) : list Z :=
  map (fun cp => if is_control_char cp then 32 else cp) cps.

(** [str.isspace] on one character: the white space of [str.strip()]. *)
Definition is_space (cp : Z) : bool :=
  ((9 <=? cp) && (cp <=? 13)) || ((28 <=? cp) && (cp <=? 32))
  || (cp =? 133) || (cp =? 160) || (cp =? 5760)
  || ((8192 <=? cp) && (cp <=? 8202))
  || (cp =? 8232) || (cp =? 8233) || (cp =? 8239) || (cp =? 8287) || (cp =? 12288).

Fixpoint lstrip (cps : list Z) : list Z :=
  match cps with
  | cp :: rest => if is_space cp then lstrip rest else cps
  | [] => []
  end.

Definition strip (cps : list Z) : list Z := rev (lstrip (rev (lstrip cps))).

(** tornado's [decode_argument]. *)
Definition decode_argument (value : string) : result (list Z) :=
  match utf8_code_points value with
  | Some cps => Ok cps
  | None => Raise (HTTPError 400)
  end.

(** The body of the loop of [_get_arguments], with [strip=True]: the
    text one value of the request is read as. *)
Definition argument_text (value : string) : result string :=
  s ← decode_argument value;
  let s := remove_control_chars s in
  let s := strip s in
  Ok (utf8_string s).

(** The loop of [_get_arguments]: the values in order, up to the first
    that does not decode. *)
Fixpoint argument_texts (values : list string) : result (list string) :=
  match values with
  | [] => Ok []
  | v :: rest =>
      s ← argument_text v;
      values ← argument_texts rest;
      Ok (s :: values)
  end.

(** ** The handler object and its collaborators *)

(** The authenticated identity and the kernel object are opaque to the
    handler; each is carried by a name. *)
Inductive user : Type := User (name : string).
Inductive kernel : Type := Kernel (name : string).

(** An instance of [kernel_websocket_connection_class]: the attributes the
    handler reads or writes, and what each of its methods answers when
    the handler calls it. *)
Record connection : Type := Connection {
  parent : kernel;
  session : string;                    (* connection.session.session *)
  kernel_ws_protocol : option string;  (* None, "" or a protocol name *)
  prepare : option (result unit);      (* None: the class has no prepare method *)
  connect : result unit;               (* what awaiting connect() gives *)
  handle_incoming_message : frame -> result unit;  (* what handle_incoming_message(frame) gives *)
  disconnect : result unit             (* what disconnect() gives *)
}.

(** Every call the handler makes on a collaborator, in order. *)
Inductive effect : Type :=
| LogWarning (msg : string)
| LogInfo (msg : string)
| CallIsAuthorized (u : user) (action resource : string)
| CallGetKernel (kernel_id : string)
| CallConstruct (k : kernel)
| CallPrepare
| CallConnect
| CallHandleIncoming (ws_message : frame)
| CallDisconnect.

(** [self]: the request, the application's collaborators, the two
    attributes the handler assigns, and the log of effects so far. *)
Record handler : Type := Handler {
  current_user : option user;
  is_authorized : user -> string -> string -> bool;       (* self.authorizer *)
  get_kernel : string -> result kernel;                   (* self.kernel_manager *)
  kernel_websocket_connection_class : kernel -> result connection;
  arguments : gmap string (list string);                  (* self.request.arguments: the values of each name, as bytes *)
  headers : gmap string string;                           (* self.request.headers, by normalized name *)
  kernel_id : option string;                              (* None: attribute not set *)
  the_connection : option connection;                     (* self.connection; None also when not set *)
  effects : list effect
}.

Definition set_kernel_id (v : option string) (h : handler) : handler :=
  Handler (current_user h) (is_authorized h) (get_kernel h)
    (kernel_websocket_connection_class h) (arguments h) (headers h)
    v (the_connection h) (effects h).

Definition set_connection (v : option connection) (h : handler) : handler :=
  Handler (current_user h) (is_authorized h) (get_kernel h)
    (kernel_websocket_connection_class h) (arguments h) (headers h)
    (kernel_id h) v (effects h).

Definition add_effect (e : effect) (h : handler) : handler :=
  Handler (current_user h) (is_authorized h) (get_kernel h)
    (kernel_websocket_connection_class h) (arguments h) (headers h)
    (kernel_id h) (the_connection h) (effects h ++ [e]).

Definition set_session (v : string) (c : connection) : connection :=
  Connection (parent c) v (kernel_ws_protocol c) (prepare c) (connect c)
    (handle_incoming_message c) (disconnect c).

(** A method of the handler: it may raise, and what it did to [self]
    before raising stays done. *)
Definition M (A : Type) : Type := handler -> result A * handler.

#[global] Instance M_ret : MRet M := fun A a h => (Ok a, h).
#[global] Instance M_bind : MBind M := fun A B f m h =>
  match m h with
  | (Ok a, h') => f a h'
  | (Raise e, h') => (Raise e, h')
  end.

Definition raise {A : Type} (e : exn) : M A := fun h => (Raise e, h).
Definition lift {A : Type} (r : result A) : M A := fun h => (r, h).
Definition read {A : Type} (f : handler -> A) : M A := fun h => (Ok (f h), h).
Definition modify (f : handler -> handler) : M unit := fun h => (Ok tt, f h).
Definition emit (e : effect) : M unit := modify (add_effect e).

(** [self.connection.<attr>]: None has no attributes. *)
Definition self_connection : M connection :=
  c ← read the_connection;
  match c with
  | Some c => mret c
  | None => raise AttributeError
  end.

(** tornado's [_get_arguments(name, self.request.arguments)]: the text
    of every value given for [name]. *)
Definition _get_arguments (name : string) : M (list string) :=
  args ← read arguments;
  lift (argument_texts (default [] (args !! name))).

(** tornado's [get_argument(name, None)]: the text of the last value
    given for [name], None when there is none. *)
Definition get_argument_or_None (name : string) : M (option string) :=
  args ← _get_arguments name;
  mret (last args).

(** tornado's [get_argument(name)]: a missing argument is a
    MissingArgumentError, an HTTPError with status 400. *)
Definition get_argument (name : string) : M string :=
  args ← _get_arguments name;
  match last args with
  | Some v => mret v
  | None => raise (HTTPError 400)
  end.

(** Truth value of [get_argument(name, None)] in an [if]. *)
Definition truthy (v : option string) : bool :=
  match v with
  | None => false
  | Some s => negb (String.eqb s "")
  end.

Section Handler.

Variable json_loads : string -> result value.
Variable json_dumps : value -> result string.
Variable repr_container : value -> result string.
(** [super().get(kernel_id=kernel_id)]: the websocket handshake of the
    base classes. *)
Variable super_get : string -> M unit.

(** Lines 38-62. *)
Definition pre_get : M unit :=
  user ← read current_user;
  match user with
  | None =>
      emit (LogWarning "Couldn't authenticate WebSocket connection");;
      raise (HTTPError 403)
  | Some user =>
      authorized ← read (fun h => is_authorized h user "execute" "kernels");
      emit (CallIsAuthorized user "execute" "kernels");;
      if negb authorized then raise (HTTPError 403) else
      kid ← read kernel_id;
      kid ← match kid with Some k => mret k | None => raise AttributeError end;
      emit (CallGetKernel kid);;
      kernel ← (mk ← read get_kernel; lift (mk kid));
      emit (CallConstruct kernel);;
      conn ← (cls ← read kernel_websocket_connection_class; lift (cls kernel));
      modify (set_connection (Some conn));;
      sid ← get_argument_or_None "session_id";
      (if truthy sid then
         sid ← get_argument "session_id";
         conn ← self_connection;
         modify (set_connection (Some (set_session sid conn)))
       else emit (LogWarning "No session ID specified"));;
      conn ← self_connection;
      match prepare conn with
      | Some outcome => emit CallPrepare;; lift outcome
      | None => mret tt
      end
  end.

(** Lines 64-68. *)
Definition get (kernel_id : string) : M unit :=
  modify (set_kernel_id (Some kernel_id));;
  pre_get;;
  super_get kernel_id.

(** Lines 70-74. *)
Definition open (_ : string) : M unit :=
  kid ← read kernel_id;
  kid ← match kid with Some k => mret k | None => raise AttributeError end;
  emit (LogInfo ("Connecting to kernel " +:+ kid +:+ "."));;
  conn ← self_connection;
  emit CallConnect;;
  lift (connect conn).

(** Lines 76-92. *)
Definition on_message (ws_message : frame) : M unit :=
  hdrs ← read headers;
  let ws_message := intercept json_loads json_dumps repr_container hdrs ws_message in
  conn ← self_connection;
  emit (CallHandleIncoming ws_message);;
  lift (handle_incoming_message conn ws_message).

(** Lines 94-97. *)
Definition on_close : M unit :=
  conn ← self_connection;
  emit CallDisconnect;;
  lift (disconnect conn);;
  modify (set_connection None).

(** [x in subprotocols] for a list of str: None is never a member. *)
Definition py_in (x : option string) (subprotocols : list string) : bool :=
  match x with
  | Some p => existsb (String.eqb p) subprotocols
  | None => false
  end.

(** Lines 99-108. *)
Definition select_subprotocol (subprotocols : list string) : M (option string) :=
  conn ← self_connection;
  let preferred_protocol := kernel_ws_protocol conn in
  let preferred_protocol :=
    match preferred_protocol with
    | None => Some DEFAULT_PROTOCOL
    | Some p => if String.eqb p "" then None else Some p
    end in
  let selected_subprotocol :=
    if py_in preferred_protocol subprotocols then preferred_protocol else None in
  mret selected_subprotocol.

(** *** The callbacks tornado delivers once a connection is admitted *)

Inductive callback : Type :=
| Open
| OnMessage (ws_message : frame)
| OnClose
| SelectSubprotocol (subprotocols : list string).

Definition run_callback (cb : callback) : M unit :=
  match cb with
  | Open => kid ← read kernel_id; open (default "" kid)
  | OnMessage f => on_message f
  | OnClose => on_close
  | SelectSubprotocol l => select_subprotocol l;; mret tt
  end.

(** The handler after a sequence of callbacks.  An exception leaving a
    callback is logged by tornado; what the callback did to [self]
    stays. *)
Definition deliver (cbs : list callback) (h : handler) : handler :=
  fold_left (fun h cb => snd (run_callback cb h)) cbs h.

End Handler.

(** ** A reference model of the runtime: CPython's [json] codec

    [PyJson.loads] and [PyJson.dumps] follow [json.loads] and
    [json.dumps] with their default arguments, and [PyJson.repr] follows
    [repr], on a str carried as its UTF-8 bytes.  Ints are unbounded but
    for the default limit on their digits; floats are binary64, rounded
    to nearest even and written in the shortest form that reads back.
    The interpreter's recursion limit is left out (deep nesting raises
    RecursionError there), and [is_printable] knows the Unicode database
    up to U+00FF only.  The properties of the handler are proved for any
    runtime; this one serves to run it on concrete frames. *)
Module PyJson.

Definition code (c : ascii) : Z := Z.of_N (N_of_ascii c).
Definition chr (n : Z) : ascii := ascii_of_N (Z.to_N n).
Definition char (n : Z) : string := String (chr n) "".

Definition is_digit (c : ascii) : bool := (48 <=? code c) && (code c <=? 57).

(** The value of a hexadecimal digit, upper or lower case. *)
Definition hex_value (c : ascii) : option Z :=
  let n := code c in
  if (48 <=? n) && (n <=? 57) then Some (n - 48)
  else if (97 <=? n) && (n <=? 102) then Some (n - 87)
  else if (65 <=? n) && (n <=? 70) then Some (n - 55)
  else None.

Definition hex_digit (n : Z) : string :=
  char (if n <? 10 then 48 + n else 87 + n).

(** [n] in lower-case hexadecimal, on [width] digits (the low ones). *)
Fixpoint hex (width : nat) (n : Z) : string :=
  match width with
  | O => ""
  | S w => hex w (n / 16) +:+ hex_digit (n mod 16)
  end.

(** *** UTF-8 *)

(** The bytes of one code point; a lone surrogate takes three bytes like
    its neighbours. *)
Definition utf8_encode (cp : Z) : string :=
  if cp <? 128 then char cp
  else if cp <? 2048 then
    char (192 + cp / 64) +:+ char (128 + cp mod 64)
  else if cp <? 65536 then
    char (224 + cp / 4096) +:+ char (128 + (cp / 64) mod 64) +:+ char (128 + cp mod 64)
  else
    char (240 + cp / 262144) +:+ char (128 + (cp / 4096) mod 64)
      +:+ char (128 + (cp / 64) mod 64) +:+ char (128 + cp mod 64).

(** The code points of a text that is the UTF-8 encoding of a str (so
    every sequence in it is well formed): [pending] continuation bytes
    are still due for the code point accumulated in [acc]. *)
Fixpoint utf8_decode_from (pending : nat) (acc : Z) (s : string) : list Z :=
  match s with
  | "" => []
  | String a rest =>
      let n := code a in
      match pending with
      | S O => (acc * 64 + (n - 128)) :: utf8_decode_from 0 0 rest
      | S p => utf8_decode_from p (acc * 64 + (n - 128)) rest
      | O =>
          if n <? 128 then n :: utf8_decode_from 0 0 rest
          else if n <? 224 then utf8_decode_from 1 (n - 192) rest
          else if n <? 240 then utf8_decode_from 2 (n - 224) rest
          else utf8_decode_from 3 (n - 240) rest
      end
  end.

Definition utf8_decode (s : string) : list Z := utf8_decode_from 0 0 s.

(** *** Floats: [float(literal)] and [float.__repr__] *)

(** A positive binary64 magnitude: zero, infinity, or
    [mantissa * 2 ^ exponent] with [2^52 <= mantissa < 2^53], or with
    [exponent = -1074] and a smaller mantissa (subnormal). *)
Inductive magnitude : Type :=
| Zero
| Infinity
| Finite (mantissa exponent : Z).

Definition magnitude_eqb (a b : magnitude) : bool :=
  match a, b with
  | Zero, Zero | Infinity, Infinity => true
  | Finite m q, Finite m' q' => (m =? m') && (q =? q')
  | _, _ => false
  end.

(** [n / d] rounded to the nearest integer, ties to even. *)
Definition div_round_even (n d : Z) : Z :=
  let q := n / d in
  let r := n mod d in
  if 2 * r <? d then q
  else if d <? 2 * r then q + 1
  else if Z.even q then q else q + 1.

(** The binary64 nearest to [n / d], for positive [n] and [d]. *)
Definition nearest_binary64 (n d : Z) : magnitude :=
  let l := Z.log2 n - Z.log2 d in
  let b := if n * 2 ^ Z.max 0 (- l) <? d * 2 ^ Z.max 0 l then l - 1 else l in
  let q := Z.max (b - 52) (-1074) in
  let m := div_round_even (n * 2 ^ Z.max 0 (- q)) (d * 2 ^ Z.max 0 q) in
  let q := if m =? 2 ^ 53 then q + 1 else q in
  let m := if m =? 2 ^ 53 then 2 ^ 52 else m in
  if m =? 0 then Zero
  else if 971 <? q then Infinity
  else Finite m q.

Definition digits (m : Z) : Z := Z.of_nat (String.length (pretty m)).

(** The binary64 nearest to [m * 10 ^ e], for [m >= 0]. *)
Definition decimal_to_binary64 (m e : Z) : magnitude :=
  if m =? 0 then Zero
  else if 310 <? e + digits m then Infinity
  else if e + digits m <? -330 then Zero
  else nearest_binary64 (m * 10 ^ Z.max 0 e) (10 ^ Z.max 0 (- e)).

(** The least [k] from [k0] on with [n / d < 10 ^ k]. *)
Fixpoint decimal_point (tries : nat) (n d k : Z) : Z :=
  match tries with
  | O => k
  | S t =>
      if n * 10 ^ Z.max 0 (- k) <? d * 10 ^ Z.max 0 k then k
      else decimal_point t n d (k + 1)
  end.

(** The shortest decimal [c * 10 ^ j] that reads back as [x]; when two
    of that length do, the one nearest to [x], and the even one when
    they are as near: [c] has [nd] digits, one more for each failed
    try. *)
Fixpoint shortest_decimal (tries : nat) (x : magnitude) (n d k nd : Z) : Z * Z :=
  let j := k - nd in
  let scaled_n := n * 10 ^ Z.max 0 (- j) in
  let scaled_d := d * 10 ^ Z.max 0 j in
  let lo := scaled_n / scaled_d in
  let r := scaled_n mod scaled_d in
  let lo_ok := magnitude_eqb (decimal_to_binary64 lo j) x in
  let hi_ok := magnitude_eqb (decimal_to_binary64 (lo + 1) j) x in
  match tries with
  | O => (lo, j)
  | S t =>
      let lo_nearer := (2 * r <? scaled_d) || ((2 * r =? scaled_d) && Z.even lo) in
      if lo_ok && (negb hi_ok || lo_nearer) then (lo, j)
      else if hi_ok then (lo + 1, j)
      else shortest_decimal t x n d k (nd + 1)
  end.

Fixpoint strip_zeros (rev_digits : list ascii) : list ascii :=
  match rev_digits with
  | c :: rest => if Ascii.eqb c "0" then strip_zeros rest else rev_digits
  | [] => []
  end.

Fixpoint zeros (n : nat) : string :=
  match n with
  | O => ""
  | S n => String "0" (zeros n)
  end.

(** [float.__repr__] of a positive finite magnitude: fixed notation when
    the decimal point falls within [-4 < decpt <= 16], exponent
    notation otherwise. *)
Definition repr_finite (m q : Z) : string :=
  let n := m * 2 ^ Z.max 0 q in
  let d := 2 ^ Z.max 0 (- q) in
  let k0 := (Z.log2 n - Z.log2 d) * 30103 / 100000 - 1 in
  let k := decimal_point 6 n d k0 in
  let '(c, j) := shortest_decimal 17 (Finite m q) n d k 1 in
  let decpt := digits c + j in
  let ds := string_of_list_ascii (rev (strip_zeros (rev (list_ascii_of_string (pretty c))))) in
  let len := Z.of_nat (String.length ds) in
  if (decpt <=? -4) || (16 <? decpt) then
    let e := decpt - 1 in
    let mant := match ds with
                | String c "" => ds
                | String c rest => String c ("." +:+ rest)
                | "" => ds
                end in
    let ee := pretty (Z.abs e) in
    mant +:+ "e" +:+ (if e <? 0 then "-" else "+")
      +:+ (if Z.abs e <? 10 then "0" +:+ ee else ee)
  else if decpt <=? 0 then "0." +:+ zeros (Z.to_nat (- decpt)) +:+ ds
  else if len <=? decpt then ds +:+ zeros (Z.to_nat (decpt - len)) +:+ ".0"
  else substring 0 (Z.to_nat decpt) ds +:+ "."
         +:+ substring (Z.to_nat decpt) (Z.to_nat (len - decpt)) ds.

Definition float_repr (negative : bool) (x : magnitude) : string :=
  (if negative then "-" else "") +:+
  match x with
  | Zero => "0.0"
  | Infinity => "inf"
  | Finite m q => repr_finite m q
  end.

(** *** The scanner of [json.loads] *)

Definition is_whitespace (c : ascii) : bool :=
  let n := code c in (n =? 32) || (n =? 9) || (n =? 10) || (n =? 13).

Fixpoint skip_whitespace (s : string) : string :=
  match s with
  | String c rest => if is_whitespace c then skip_whitespace rest else s
  | "" => s
  end.

(** [strip_prefix p s]: what follows [p] in [s], when [s] starts with it. *)
Fixpoint strip_prefix (p s : string) : option string :=
  match p, s with
  | "", _ => Some s
  | String a p', String b s' => if Ascii.eqb a b then strip_prefix p' s' else None
  | _, "" => None
  end.

(** The longest run of digits at the head of [s], and what follows. *)
Fixpoint span_digits (s : string) : string * string :=
  match s with
  | String c rest =>
      if is_digit c then
        let '(ds, r) := span_digits rest in (String c ds, r)
      else ("", s)
  | "" => ("", "")
  end.

Fixpoint digits_value (acc : Z) (s : string) : Z :=
  match s with
  | String c rest => digits_value (acc * 10 + (code c - 48)) rest
  | "" => acc
  end.

Definition is_empty (s : string) : bool :=
  match s with "" => true | _ => false end.

Definition is_None {A : Type} (o : option A) : bool :=
  match o with None => true | Some _ => false end.

(** The default limit of [sys.set_int_max_str_digits]. *)
Definition INT_MAX_STR_DIGITS : Z := 4300.

(** A number at the head of [s]: an optional minus sign, then a zero or
    a run of digits that starts with none, then a fraction and an
    exponent when they are complete; an int when there is neither. *)
Definition scan_number (s : string) : result (value * string) :=
  let '(negative, s1) :=
    match s with
    | String "-" r => (true, r)
    | _ => (false, s)
    end in
  match s1 with
  | String c r =>
      if is_digit c then
        let '(int_digits, s2) :=
          if code c =? 48 then ("0", r) else span_digits s1 in
        let '(frac_digits, s3) :=
          match s2 with
          | String "." r2 =>
              let '(fd, r3) := span_digits r2 in
              if is_empty fd then ("", s2) else (fd, r3)
          | _ => ("", s2)
          end in
        let '(exponent, s4) :=
          match s3 with
          | String e r3 =>
              if (code e =? 101) || (code e =? 69) then
                let '(exp_negative, r4) :=
                  match r3 with
                  | String "-" r => (true, r)
                  | String "+" r => (false, r)
                  | _ => (false, r3)
                  end in
                let '(ed, r5) := span_digits r4 in
                if is_empty ed then (None, s3)
                else (Some (if exp_negative then - digits_value 0 ed
                            else digits_value 0 ed), r5)
              else (None, s3)
          | "" => (None, s3)
          end in
        if is_empty frac_digits && is_None exponent then
          if INT_MAX_STR_DIGITS <? Z.of_nat (String.length int_digits)
          then Raise (LibraryError "ValueError")
          else Ok (JInt (if negative then - digits_value 0 int_digits
                         else digits_value 0 int_digits), s4)
        else
          let m := digits_value 0 (int_digits +:+ frac_digits) in
          let e := default 0 exponent - Z.of_nat (String.length frac_digits) in
          Ok (JFloat (float_repr negative (decimal_to_binary64 m e)), s4)
      else Raise JSONDecodeError
  | "" => Raise JSONDecodeError
  end.

(** Where the scanner of a string literal stands. *)
Inductive scan_state : Type :=
| Plain                       (* between escapes *)
| Escape                      (* after a backslash *)
| Hex (due : nat) (acc : Z).  (* within the four digits of a \u escape *)

Definition push (prefix : string) (r : option (string * string))
  : option (string * string) :=
  match r with
  | Some (text, rest) => Some (prefix +:+ text, rest)
  | None => None
  end.

Definition is_high_surrogate (cp : Z) : bool := (55296 <=? cp) && (cp <=? 56319).
Definition is_low_surrogate (cp : Z) : bool := (56320 <=? cp) && (cp <=? 57343).

(** A high surrogate read from a \u escape and not yet written: it joins
    the low surrogate of a \u escape that follows at once, and is
    written alone before anything else. *)
Definition flush (high : option Z) (r : option (string * string))
  : option (string * string) :=
  match high with
  | Some h => push (utf8_encode h) r
  | None => r
  end.

(** The character a one-letter escape stands for. *)
Definition simple_escape (c : ascii) : option string :=
  let n := code c in
  if n =? 34 then Some (char 34)          (* quote *)
  else if n =? 92 then Some (char 92)     (* backslash *)
  else if n =? 47 then Some "/"
  else if n =? 98 then Some (char 8)      (* b *)
  else if n =? 102 then Some (char 12)    (* f *)
  else if n =? 110 then Some (char 10)    (* n *)
  else if n =? 114 then Some (char 13)    (* r *)
  else if n =? 116 then Some (char 9)     (* t *)
  else None.

(** [scanstring] in strict mode, from just after the opening quote: the
    decoded text and what follows the closing quote.  None is a
    JSONDecodeError (unterminated string, control character, bad
    escape). *)
Fixpoint scanstring (st : scan_state) (high : option Z) (s : string)
  : option (string * string) :=
  match s with
  | "" => None
  | String c rest =>
      match st with
      | Plain =>
          if code c =? 92 then scanstring Escape high rest
          else flush high
                 (if code c =? 34 then Some ("", rest)
                  else if code c <? 32 then None
                  else push (String c "") (scanstring Plain None rest))
      | Escape =>
          if code c =? 117 then scanstring (Hex 4 0) high rest
          else flush high
                 match simple_escape c with
                 | Some ch => push ch (scanstring Plain None rest)
                 | None => None
                 end
      | Hex due acc =>
          match hex_value c with
          | None => None
          | Some v =>
              let cp := acc * 16 + v in
              match due with
              | 1%nat =>
                  let fresh :=
                    if is_high_surrogate cp then scanstring Plain (Some cp) rest
                    else push (utf8_encode cp) (scanstring Plain None rest) in
                  match high with
                  | Some h =>
                      if is_low_surrogate cp
                      then push (utf8_encode (65536 + (h - 55296) * 1024 + (cp - 56320)))
                             (scanstring Plain None rest)
                      else push (utf8_encode h) fresh
                  | None => fresh
                  end
              | S due' => scanstring (Hex due' cp) high rest
              | O => None
              end
          end
      end
  end.

Definition literal (word : string) (v : value) (s : string) : result (value * string) :=
  match strip_prefix word s with
  | Some rest => Ok (v, rest)
  | None => Raise JSONDecodeError
  end.

(** [scan_once]: one JSON value at the head of [s] and what follows it.
    [members] reads the pairs of an object from its first key on,
    [items] the elements of an array from its first element on.  Of two
    calls in a row one is on a shorter text, so [fuel] above twice the
    length of the text never runs out. *)
Fixpoint scan_once (fuel : nat) (s : string) : result (value * string) :=
  match fuel with
  | O => Raise JSONDecodeError
  | S fuel =>
      match s with
      | "" => Raise JSONDecodeError
      | String c rest =>
          let n := code c in
          if n =? 34 then
            match scanstring Plain None rest with
            | Some (text, rest) => Ok (JStr text, rest)
            | None => Raise JSONDecodeError
            end
          else if n =? 123 then
            match skip_whitespace rest with
            | String "}" rest => Ok (JObj [], rest)
            | rest => members fuel [] rest
            end
          else if n =? 91 then
            match skip_whitespace rest with
            | String "]" rest => Ok (JArr [], rest)
            | rest => items fuel [] rest
            end
          else if n =? 110 then literal "null" JNull s
          else if n =? 116 then literal "true" (JBool true) s
          else if n =? 102 then literal "false" (JBool false) s
          else if n =? 78 then literal "NaN" (JFloat "nan") s
          else if n =? 73 then literal "Infinity" (JFloat "inf") s
          else if n =? 45 then
            match strip_prefix "-Infinity" s with
            | Some rest => Ok (JFloat "-inf", rest)
            | None => scan_number s
            end
          else scan_number s
      end
  end
with members (fuel : nat) (acc : list (string * value)) (s : string)
  : result (value * string) :=
  match fuel with
  | O => Raise JSONDecodeError
  | S fuel =>
      match s with
      | String c rest =>
          if code c =? 34 then
            match scanstring Plain None rest with
            | Some (key, rest) =>
                match skip_whitespace rest with
                | String ":" rest =>
                    '(v, rest) ← scan_once fuel (skip_whitespace rest);
                    let acc := dict_set key v acc in
                    match skip_whitespace rest with
                    | String "," rest => members fuel acc (skip_whitespace rest)
                    | String "}" rest => Ok (JObj acc, rest)
                    | _ => Raise JSONDecodeError
                    end
                | _ => Raise JSONDecodeError
                end
            | None => Raise JSONDecodeError
            end
          else Raise JSONDecodeError
      | "" => Raise JSONDecodeError
      end
  end
with items (fuel : nat) (acc : list value) (s : string) : result (value * string) :=
  match fuel with
  | O => Raise JSONDecodeError
  | S fuel =>
      '(v, rest) ← scan_once fuel s;
      let acc := (acc ++ [v])%list in
      match skip_whitespace rest with
      | String "," rest => items fuel acc (skip_whitespace rest)
      | String "]" rest => Ok (JArr acc, rest)
      | _ => Raise JSONDecodeError
      end
  end.

(** [json.loads(s)]: one value, with whitespace around it and nothing
    else. *)
Definition loads (s : string) : result value :=
  '(v, rest) ← scan_once (2 * String.length s + 2) (skip_whitespace s);
  if is_empty (skip_whitespace rest) then Ok v else Raise JSONDecodeError.

(** *** The encoder of [json.dumps] *)

(** One code point of a str under [ensure_ascii]. *)
Definition escape_ascii (cp : Z) : string :=
  if cp =? 34 then "\" +:+ char 34
  else if cp =? 92 then "\\"
  else if cp =? 10 then "\n"
  else if cp =? 13 then "\r"
  else if cp =? 9 then "\t"
  else if cp =? 12 then "\f"
  else if cp =? 8 then "\b"
  else if (32 <=? cp) && (cp <=? 126) then char cp
  else if cp <? 65536 then "\u" +:+ hex 4 cp
  else "\u" +:+ hex 4 (55296 + (cp - 65536) / 1024)
         +:+ "\u" +:+ hex 4 (56320 + (cp - 65536) mod 1024).

Definition encode_string (s : string) : string :=
  char 34 +:+ String.concat "" (map escape_ascii (utf8_decode s)) +:+ char 34.

(** A float: its repr, but for the three values JSON has no syntax for. *)
Definition encode_float (repr : string) : string :=
  if String.eqb repr "nan" then "NaN"
  else if String.eqb repr "inf" then "Infinity"
  else if String.eqb repr "-inf" then "-Infinity"
  else repr.

(** The text of a value, with the default separators. *)
Fixpoint encode (v : value) : string :=
  match v with
  | JNull => "null"
  | JBool true => "true"
  | JBool false => "false"
  | JInt n => pretty n
  | JFloat r => encode_float r
  | JStr s => encode_string s
  | JArr l => "[" +:+ String.concat ", " (map encode l) +:+ "]"
  | JObj d =>
      "{" +:+ String.concat ", "
                (map (fun kv => let '(k, w) := kv in
                                encode_string k +:+ ": " +:+ encode w) d)
        +:+ "}"
  end.

Definition dumps (v : value) : result string := Ok (encode v).

(** *** [repr] *)

(** [str.isprintable] of one code point.  Exact up to U+00FF and on the
    surrogates; the tables of the Unicode database for the rest are not
    reproduced here, and the other code points count as printable. *)
Definition is_printable (cp : Z) : bool :=
  if cp <? 128 then (32 <=? cp) && (cp <? 127)
  else if cp <? 256 then (161 <=? cp) && negb (cp =? 173)
  else negb ((55296 <=? cp) && (cp <=? 57343)).

Definition repr_code_point (quote cp : Z) : string :=
  if (cp =? quote) || (cp =? 92) then "\" +:+ char cp
  else if cp =? 9 then "\t"
  else if cp =? 10 then "\n"
  else if cp =? 13 then "\r"
  else if is_printable cp then utf8_encode cp
  else if cp <? 256 then "\x" +:+ hex 2 cp
  else if cp <? 65536 then "\u" +:+ hex 4 cp
  else "\U" +:+ hex 8 cp.

Definition has (cp : Z) (cps : list Z) : bool := existsb (Z.eqb cp) cps.

(** [repr] of a str: in single quotes, unless it holds a single quote
    and no double quote. *)
Definition repr_string (s : string) : string :=
  let cps := utf8_decode s in
  let quote := if has 39 cps && negb (has 34 cps) then 34 else 39 in
  char quote +:+ String.concat "" (map (repr_code_point quote) cps) +:+ char quote.

Fixpoint repr (v : value) : string :=
  match v with
  | JNull => "None"
  | JBool true => "True"
  | JBool false => "False"
  | JInt n => pretty n
  | JFloat r => r
  | JStr s => repr_string s
  | JArr l => "[" +:+ String.concat ", " (map repr l) +:+ "]"
  | JObj d =>
      "{" +:+ String.concat ", "
                (map (fun kv => let '(k, w) := kv in
                                repr_string k +:+ ": " +:+ repr w) d)
        +:+ "}"
  end.

Definition repr_container (v : value) : result string := Ok (repr v).

End PyJson.

(** * Properties *)

(** ** Dictionaries *)

Lemma dict_get_set_eq (key : string) (v : value) (d : list (string * value)) :
  dict_get key (dict_set key v d) = Some v.
Proof.
  induction d as [|[k w] d IH]; simpl.
  - by rewrite String.eqb_refl.
  - destruct (String.eqb k key) eqn:E; simpl; rewrite E; [done | exact IH].
Qed.

Lemma dict_get_set_ne (key key' : string) (v : value) (d : list (string * value)) :
  key <> key' -> dict_get key' (dict_set key v d) = dict_get key' d.
Proof.
  intros Hne. induction d as [|[k w] d IH]; simpl.
  - destruct (String.eqb key key') eqn:E; [|done].
    apply String.eqb_eq in E. contradiction.
  - destruct (String.eqb k key) eqn:E; simpl.
    + apply String.eqb_eq in E. subst k.
      destruct (String.eqb key key') eqn:E'; [|done].
      apply String.eqb_eq in E'. contradiction.
    + by rewrite IH.
Qed.

(** Storing under a key that is bound keeps every key where it was. *)
Lemma dict_set_keys (key : string) (v w : value) (d : list (string * value)) :
  dict_get key d = Some w -> map fst (dict_set key v d) = map fst d.
Proof.
  induction d as [|[k u] d IH]; simpl; [done|].
  destruct (String.eqb k key) eqn:E; simpl; [done|].
  intros H. by rewrite IH.
Qed.

Lemma append_assoc (a b c : string) : (a +:+ b) +:+ c = a +:+ (b +:+ c).
Proof.
  induction a as [|x a IH]; [done|].
  change (String x ((a +:+ b) +:+ c) = String x (a +:+ (b +:+ c))).
  by rewrite IH.
Qed.

(** ** The interceptor *)

(** What [on_message] leaves behind when it hands [f] to the connection
    [c]: the call is made, and its outcome is the outcome of
    [on_message]. *)
Definition forwards (c : connection) (f : frame) (h : handler)
  : result unit * handler :=
  (handle_incoming_message c f, add_effect (CallHandleIncoming f) h).

(** The text spliced for the credential: the header's value, or the text
    of None. *)
Definition token_text (hdrs : gmap string string) : string :=
  default "None" (hdrs !! TOKEN_HEADER).

(** The statements put before the code of an execute request, with the
    newline that ends them. *)
Definition injected (token : string) : string :=
  "import os" +:+ String "010" "os.environ['FORWARDED_ACCESS_TOKEN'] = "
    +:+ "'" +:+ token +:+ "'" +:+ String "010" "".

(** The envelope [m] after [m['content']['code'] = JStr new_code], for a
    [content] that is the dict bound to [content] in [m]. *)
Definition with_code (new_code : string) (content m : list (string * value))
  : list (string * value) :=
  dict_set "content" (JObj (dict_set "code" (JStr new_code) content)) m.

Section InterceptorFacts.

Variable json_loads : string -> result value.
Variable json_dumps : value -> result string.
Variable repr_container : value -> result string.

#[local] Abbreviation rewrite_text' := (rewrite_text json_loads json_dumps repr_container).
#[local] Abbreviation intercept' := (intercept json_loads json_dumps repr_container).
#[local] Abbreviation on_message' := (on_message json_loads json_dumps repr_container).

(** On a handler that holds a connection, [on_message] hands the
    intercepted frame to it and returns. *)
Lemma on_message_forwards (h : handler) (c : connection) (f : frame) :
  the_connection h = Some c ->
  on_message' f h = forwards c (intercept' (headers h) f) h.
Proof.
  intros Hc. unfold on_message, forwards, self_connection, emit, modify, read, lift.
  unfold mbind, M_bind, mret, M_ret. rewrite Hc.
  by destruct (handle_incoming_message c (intercept' (headers h) f)).
Qed.

Lemma format_token (hdrs : gmap string string) :
  py_format repr_container (headers_get hdrs TOKEN_HEADER) = Ok (token_text hdrs).
Proof.
  unfold headers_get, token_text. by destruct (hdrs !! TOKEN_HEADER).
Qed.

Lemma intercept_raise (hdrs : gmap string string) (s : string) (e : exn) :
  rewrite_text' hdrs s = Raise e -> intercept' hdrs (Text s) = Text s.
Proof. intros H. unfold intercept. by rewrite H. Qed.

Lemma intercept_ok (hdrs : gmap string string) (s s' : string) :
  rewrite_text' hdrs s = Ok s' -> intercept' hdrs (Text s) = Text s'.
Proof. intros H. unfold intercept. by rewrite H. Qed.

(** A frame whose text does not parse leaves the [try] block by the
    exception of [json.loads]. *)
Lemma rewrite_unparseable (hdrs : gmap string string) (s : string) (e : exn) :
  json_loads s = Raise e -> rewrite_text' hdrs s = Raise e.
Proof. intros H. unfold rewrite_text. by rewrite H. Qed.

(** A frame that parses to anything but a dict leaves it by the
    AttributeError of [message.get]. *)
Lemma rewrite_not_object (hdrs : gmap string string) (s : string) (v : value) :
  json_loads s = Ok v -> (forall d, v <> JObj d) ->
  rewrite_text' hdrs s = Raise AttributeError.
Proof.
  intros H Hv. unfold rewrite_text. rewrite H. simpl.
  destruct v; try reflexivity. by destruct (Hv fields).
Qed.

(** The [try] block on an execute request that carries a code: the
    envelope is serialized again with the statements spliced before the
    text of the code, in place. *)
Lemma rewrite_execute (hdrs : gmap string string) (s : string)
      (m hdr content : list (string * value)) (c : value) (text : string) :
  json_loads s = Ok (JObj m) ->
  dict_get "header" m = Some (JObj hdr) ->
  dict_get "msg_type" hdr = Some (JStr "execute_request") ->
  dict_get "content" m = Some (JObj content) ->
  dict_get "code" content = Some c ->
  c <> JNull ->
  py_format repr_container c = Ok text ->
  rewrite_text' hdrs s =
    json_dumps (JObj (with_code (injected (token_text hdrs) +:+ text) content m)).
Proof.
  intros Hs Hh Ht Hc Hcode Hnn Hf.
  unfold rewrite_text. rewrite Hs. simpl.
  rewrite Hh. simpl. rewrite Ht. simpl. rewrite Hc. simpl. rewrite Hcode. simpl.
  assert (is_not_None c = true) as -> by (by destruct c).
  rewrite format_token. simpl. rewrite ?Hcode. simpl.
  rewrite Hf. simpl.
  unfold with_code, injected. by rewrite !append_assoc.
Qed.

(** The [try] block on an envelope that is no execute request: either
    [header] is bound to something that has no [get], or the envelope is
    serialized again as it was parsed. *)
Lemma rewrite_other (hdrs : gmap string string) (s : string)
      (m : list (string * value)) :
  json_loads s = Ok (JObj m) ->
  (forall hdr, dict_get "header" m = Some (JObj hdr) ->
               dict_get "msg_type" hdr <> Some (JStr "execute_request")) ->
  rewrite_text' hdrs s = Raise AttributeError \/
  rewrite_text' hdrs s = json_dumps (JObj m).
Proof.
  intros Hs Hne. unfold rewrite_text. rewrite Hs. simpl.
  destruct (dict_get "header" m) as [header|] eqn:Hh; simpl.
  - destruct header as [| | | | |items|hdr]; simpl; auto.
    specialize (Hne hdr eq_refl).
    destruct (dict_get "msg_type" hdr) as [t|] eqn:Ht; simpl; auto.
    destruct t as [| | | |t| |]; simpl; auto.
    destruct (String.eqb t "execute_request") eqn:E; auto.
    apply String.eqb_eq in E. subst t. by destruct Hne.
  - auto.
Qed.

(** The credential reaches the [try] block only as the text it is
    spliced as. *)
Lemma rewrite_text_token (hdrs hdrs' : gmap string string) (s : string) :
  token_text hdrs = token_text hdrs' ->
  rewrite_text' hdrs s = rewrite_text' hdrs' s.
Proof.
  intros H. unfold rewrite_text. rewrite !format_token. by rewrite H.
Qed.

(** C5. A binary frame, and a text frame that [json.loads] rejects, reach
    the connection byte for byte as they came. *)
Theorem passthrough_binary_or_unparseable (h : handler) (c : connection) (f : frame) :
  the_connection h = Some c ->
  (forall s, f = Text s -> exists e, json_loads s = Raise e) ->
  on_message' f h = forwards c f h.
Proof.
  intros Hc Hf. rewrite (on_message_forwards h c f Hc). f_equal.
  destruct f as [s|b]; [|reflexivity].
  destruct (Hf s eq_refl) as [e He].
  eapply intercept_raise, rewrite_unparseable, He.
Qed.

(** C10. A text frame that is valid JSON but decodes to something other
    than an object (a number, a string, an array, a literal) reaches the
    connection byte for byte as it came: the failure of [message.get]
    after the parse is recovered like a failure of the parse. *)
Theorem passthrough_not_object (h : handler) (c : connection) (s : string) (v : value) :
  the_connection h = Some c ->
  json_loads s = Ok v ->
  (forall d, v <> JObj d) ->
  on_message' (Text s) h = forwards c (Text s) h.
Proof.
  intros Hc Hs Hv. rewrite (on_message_forwards h c _ Hc). f_equal.
  eapply intercept_raise, rewrite_not_object; eauto.
Qed.


(** C1, amended. An execute request whose code is a string is forwarded
    as the serialization of the same envelope, in which [content.code]
    is the two statements that assign the text of the credential header
    to the environment variable, their final newline, and the original
    code verbatim; no other key of [content] or of the envelope changes
    its value or its place. *)
Theorem execute_request_rewritten
        (h : handler) (conn : connection) (s src out : string)
        (m hdr content : list (string * value)) :
  the_connection h = Some conn ->
  json_loads s = Ok (JObj m) ->
  dict_get "header" m = Some (JObj hdr) ->
  dict_get "msg_type" hdr = Some (JStr "execute_request") ->
  dict_get "content" m = Some (JObj content) ->
  dict_get "code" content = Some (JStr src) ->
  json_dumps (JObj (with_code (injected (token_text (headers h)) +:+ src) content m))
    = Ok out ->
  on_message' (Text s) h = forwards conn (Text out) h /\
  (exists content',
      dict_get "content"
        (with_code (injected (token_text (headers h)) +:+ src) content m)
        = Some (JObj content') /\
      dict_get "code" content'
        = Some (JStr (injected (token_text (headers h)) +:+ src)) /\
      (forall k, k <> "code" -> dict_get k content' = dict_get k content) /\
      map fst content' = map fst content) /\
  (forall k, k <> "content" ->
             dict_get k (with_code (injected (token_text (headers h)) +:+ src) content m)
             = dict_get k m) /\
  map fst (with_code (injected (token_text (headers h)) +:+ src) content m) = map fst m.
Proof.
  intros Hconn Hs Hh Ht Hc Hcode Hd.
  split.
  { rewrite (on_message_forwards h conn _ Hconn). f_equal.
    apply intercept_ok.
    rewrite (rewrite_execute (headers h) s m hdr content (JStr src) src);
      auto; discriminate. }
  split.
  { eexists. split; [apply dict_get_set_eq|].
    split; [apply dict_get_set_eq|].
    split; [intros k Hk; by apply dict_get_set_ne|].
    by eapply dict_set_keys. }
  split; [intros k Hk; by apply dict_get_set_ne|].
  by eapply dict_set_keys.
Qed.

(** C4, amended. An envelope whose [header.msg_type] is not
    [execute_request] is not modified: what is forwarded is the
    original text, or the serialization [json.dumps] gives for the
    envelope as it was parsed, so [content] holds the same value (the
    text itself is written anew and need not be the same bytes). *)
Theorem other_message_content_kept
        (h : handler) (conn : connection) (s : string) (m : list (string * value)) :
  the_connection h = Some conn ->
  json_loads s = Ok (JObj m) ->
  (forall hdr, dict_get "header" m = Some (JObj hdr) ->
               dict_get "msg_type" hdr <> Some (JStr "execute_request")) ->
  exists out,
    on_message' (Text s) h = forwards conn (Text out) h /\
    (out = s \/ json_dumps (JObj m) = Ok out).
Proof.
  intros Hconn Hs Hne.
  rewrite (on_message_forwards h conn _ Hconn).
  destruct (rewrite_other (headers h) s m Hs Hne) as [H|H].
  - exists s. split; [|by left]. f_equal. by eapply intercept_raise.
  - destruct (json_dumps (JObj m)) as [out|e] eqn:Hd.
    + exists out. split; [|by right]. f_equal. by apply intercept_ok.
    + exists s. split; [|by left]. f_equal. by eapply intercept_raise.
Qed.

(** C7. When the request has no [X-Forwarded-Access-Token] header, an
    execute request is rewritten all the same: the assignment carries
    the text [None], and every frame is forwarded exactly as it is when
    the header is present with the value [None]. *)
Theorem absent_token_sentinel
        (h : handler) (conn : connection) (s text out : string)
        (m hdr content : list (string * value)) (c : value) :
  the_connection h = Some conn ->
  headers h !! TOKEN_HEADER = None ->
  json_loads s = Ok (JObj m) ->
  dict_get "header" m = Some (JObj hdr) ->
  dict_get "msg_type" hdr = Some (JStr "execute_request") ->
  dict_get "content" m = Some (JObj content) ->
  dict_get "code" content = Some c ->
  c <> JNull ->
  py_format repr_container c = Ok text ->
  json_dumps (JObj (with_code (injected "None" +:+ text) content m)) = Ok out ->
  on_message' (Text s) h = forwards conn (Text out) h /\
  forall f, intercept' (<[TOKEN_HEADER := "None"]> (headers h)) f
            = intercept' (headers h) f.
Proof.
  intros Hconn Hno Hs Hh Ht Hc Hcode Hnn Hf Hd.
  assert (token_text (headers h) = "None") as Htok
      by (unfold token_text; by rewrite Hno).
  split.
  - rewrite (on_message_forwards h conn _ Hconn). f_equal.
    apply intercept_ok.
    rewrite (rewrite_execute (headers h) s m hdr content c text); auto.
    by rewrite Htok.
  - intros [t|b]; [|reflexivity]. unfold intercept.
    rewrite (rewrite_text_token (<[TOKEN_HEADER := "None"]> (headers h)) (headers h));
      [reflexivity|].
    rewrite Htok. unfold token_text. by rewrite lookup_insert_eq.
Qed.

End InterceptorFacts.

(** ** Admission, negotiation and teardown *)

(** The effects that reach the backend: the kernel manager or the
    connection object. *)
Definition touches_backend (e : effect) : bool :=
  match e with
  | CallGetKernel _ | CallConstruct _ | CallPrepare | CallConnect
  | CallHandleIncoming _ | CallDisconnect => true
  | LogWarning _ | LogInfo _ | CallIsAuthorized _ _ _ => false
  end.

(** The calls made on the connection object. *)
Definition on_connection (e : effect) : bool :=
  match e with
  | CallPrepare | CallConnect | CallHandleIncoming _ | CallDisconnect => true
  | _ => false
  end.

Definition is_disconnect (e : effect) : bool :=
  match e with
  | CallDisconnect => true
  | _ => false
  end.

Definition is_close (cb : callback) : bool :=
  match cb with
  | OnClose => true
  | _ => false
  end.

(** What a log holds after its first [disconnect]. *)
Fixpoint after_disconnect (log : list effect) : list effect :=
  match log with
  | [] => []
  | CallDisconnect :: rest => rest
  | _ :: rest => after_disconnect rest
  end.

Definition set_arguments (v : gmap string (list string)) (h : handler) : handler :=
  Handler (current_user h) (is_authorized h) (get_kernel h)
    (kernel_websocket_connection_class h) v (headers h)
    (kernel_id h) (the_connection h) (effects h).

(** Unfolds the plumbing of the handler monad. *)
Ltac run_handler :=
  unfold self_connection, get_argument, get_argument_or_None, _get_arguments,
    emit, modify, read, raise, lift;
  unfold mbind, M_bind, mret, M_ret; simpl.

Lemma py_in_elem_of (p : string) (l : list string) :
  py_in (Some p) l = bool_decide (p ∈ l).
Proof.
  unfold py_in. symmetry.
  destruct (existsb (String.eqb p) l) eqn:E.
  - apply bool_decide_eq_true_2.
    apply existsb_exists in E as (x & Hx & Hpx).
    apply String.eqb_eq in Hpx. subst x. by apply list_elem_of_In.
  - apply bool_decide_eq_false_2. intros Hin.
    assert (existsb (String.eqb p) l = true) as Ht; [|congruence].
    apply existsb_exists. exists p. split; [by apply list_elem_of_In|].
    apply String.eqb_refl.
Qed.

(** C3. With a connection in place, [select_subprotocol] answers from the
    connection's preferred protocol and the offered list alone: the
    default [v1.kernel.websocket.jupyter.org] when the preference is None
    and the default is offered; None when the preference is the empty
    string, whatever is offered; the preference itself when it is
    offered; None in every other case.  The handler is left as it was. *)
Theorem select_subprotocol_spec (h : handler) (c : connection) (offered : list string) :
  the_connection h = Some c ->
  select_subprotocol offered h =
    (Ok match kernel_ws_protocol c with
        | None =>
            if decide (DEFAULT_PROTOCOL ∈ offered) then Some DEFAULT_PROTOCOL else None
        | Some p =>
            if decide (p = "") then None
            else if decide (p ∈ offered) then Some p else None
        end, h).
Proof.
  intros Hc. unfold select_subprotocol. run_handler. rewrite Hc.
  destruct (kernel_ws_protocol c) as [p|].
  - destruct (String.eqb p "") eqn:E.
    + apply String.eqb_eq in E. subst p. by rewrite decide_True.
    + apply String.eqb_neq in E. rewrite decide_False by done.
      rewrite py_in_elem_of.
      destruct (decide (p ∈ offered));
        [by rewrite bool_decide_eq_true_2 | by rewrite bool_decide_eq_false_2].
  - rewrite py_in_elem_of.
    destruct (decide (DEFAULT_PROTOCOL ∈ offered));
      [by rewrite bool_decide_eq_true_2 | by rewrite bool_decide_eq_false_2].
Qed.

(** C2. A request with no identity, or with an identity that the
    authorizer refuses for action [execute] on resource [kernels], leaves
    [get] (and [pre_get] within it) by HTTPError 403.  All that happened
    before is one warning or the one authorization check: the kernel
    manager is not asked, no connection object is constructed or stored,
    nothing is called on a connection, and the handshake of the base
    class is not reached, whatever it is. *)
Theorem unauthenticated_or_unauthorized_rejected
        (super_get : string -> M unit) (h : handler) (kid : string) :
  current_user h = None \/
  (exists u, current_user h = Some u /\ is_authorized h u "execute" "kernels" = false) ->
  exists e,
    get super_get kid h = (Raise (HTTPError 403), add_effect e (set_kernel_id (Some kid) h)) /\
    pre_get (set_kernel_id (Some kid) h)
      = (Raise (HTTPError 403), add_effect e (set_kernel_id (Some kid) h)) /\
    touches_backend e = false /\
    the_connection (add_effect e (set_kernel_id (Some kid) h)) = the_connection h /\
    effects (add_effect e (set_kernel_id (Some kid) h)) = (effects h ++ [e])%list.
Proof.
  intros [Hu | (u & Hu & Ha)].
  - exists (LogWarning "Couldn't authenticate WebSocket connection").
    unfold get, pre_get. run_handler. rewrite Hu. by simpl.
  - exists (CallIsAuthorized u "execute" "kernels").
    unfold get, pre_get. run_handler. rewrite Hu. simpl. rewrite Ha. by simpl.
Qed.

(** What [_get_arguments("session_id", ...)] gives on [h]: the texts of
    the values of the parameter, or the HTTPError 400 of the first value
    that is not valid UTF-8. *)
Definition session_ids (h : handler) : result (list string) :=
  argument_texts (default [] (arguments h !! "session_id")).




(** ** One disconnect per connection *)

Definition count_disconnects (log : list effect) : nat :=
  length (List.filter is_disconnect log).

Definition no_disconnect (log : list effect) : bool :=
  forallb (fun e => negb (is_disconnect e)) log.

Definition nothing_on_connection (log : list effect) : bool :=
  forallb (fun e => negb (on_connection e)) log.

Lemma nothing_on_connection_no_disconnect (log : list effect) :
  nothing_on_connection log = true -> no_disconnect log = true.
Proof.
  unfold nothing_on_connection, no_disconnect.
  induction log as [|e log IH]; simpl; [done|].
  intros [He Hl]%andb_prop. rewrite (IH Hl), andb_true_r.
  by destruct e.
Qed.

Lemma count_disconnects_none (log : list effect) :
  no_disconnect log = true -> count_disconnects log = 0%nat.
Proof.
  unfold no_disconnect, count_disconnects.
  induction log as [|e log IH]; simpl; [done|].
  intros [He Hl]%andb_prop. destruct (is_disconnect e); [done | by apply IH].
Qed.

Lemma count_disconnects_app (l1 l2 : list effect) :
  count_disconnects (l1 ++ l2) = (count_disconnects l1 + count_disconnects l2)%nat.
Proof.
  unfold count_disconnects. by rewrite List.filter_app, length_app.
Qed.

Lemma after_disconnect_split (before after : list effect) :
  no_disconnect before = true ->
  after_disconnect (before ++ CallDisconnect :: after) = after.
Proof.
  unfold no_disconnect. induction before as [|e l IH]; simpl; [done|].
  intros [He Hl]%andb_prop. destruct e; simpl in *; try done; by apply IH.
Qed.

Lemma after_disconnect_none (log : list effect) :
  no_disconnect log = true -> after_disconnect log = [].
Proof.
  unfold no_disconnect. induction log as [|e l IH]; simpl; [done|].
  intros [He Hl]%andb_prop. destruct e; simpl in *; try done; by apply IH.
Qed.

Section Teardown.

Variable json_loads : string -> result value.
Variable json_dumps : value -> result string.
Variable repr_container : value -> result string.

#[local] Abbreviation run_callback' :=
  (run_callback json_loads json_dumps repr_container).
#[local] Abbreviation deliver' := (deliver json_loads json_dumps repr_container).

(** A callback on a handler that holds no connection calls nothing on
    one, and leaves the handler without one. *)
Lemma callback_when_closed (cb : callback) (h : handler) :
  the_connection h = None ->
  exists log,
    effects (snd (run_callback' cb h)) = (effects h ++ log)%list /\
    nothing_on_connection log = true /\
    the_connection (snd (run_callback' cb h)) = None.
Proof.
  intros Hc. destruct cb as [|f| |l]; simpl.
  - unfold open. run_handler. destruct (kernel_id h) as [kid|]; simpl.
    + rewrite Hc. simpl. by eexists [_].
    + exists []. by rewrite app_nil_r.
  - unfold on_message. run_handler. rewrite Hc. simpl.
    exists []. by rewrite app_nil_r.
  - unfold on_close. run_handler. rewrite Hc. simpl.
    exists []. by rewrite app_nil_r.
  - unfold select_subprotocol. run_handler. rewrite Hc. simpl.
    exists []. by rewrite app_nil_r.
Qed.

(** A callback on a handler that holds its connection, when
    [disconnect] returns: [on_close] calls [disconnect] once and drops
    the connection, every other callback keeps the connection and calls
    no [disconnect]. *)
Lemma callback_when_open (cb : callback) (h : handler) (c : connection) :
  the_connection h = Some c ->
  disconnect c = Ok tt ->
  exists log,
    effects (snd (run_callback' cb h)) = (effects h ++ log)%list /\
    if is_close cb
    then log = [CallDisconnect] /\ the_connection (snd (run_callback' cb h)) = None
    else no_disconnect log = true /\
         the_connection (snd (run_callback' cb h)) = Some c.
Proof.
  intros Hc Hd. destruct cb as [|f| |l]; simpl.
  - unfold open. run_handler. destruct (kernel_id h) as [kid|]; simpl.
    + rewrite Hc. simpl. destruct (connect c); simpl.
      * eexists [_; _]. by rewrite <- app_assoc.
      * eexists [_; _]. by rewrite <- app_assoc.
    + exists []. by rewrite app_nil_r.
  - unfold on_message. run_handler. rewrite Hc. simpl.
    by eexists [_].
  - unfold on_close. run_handler. rewrite Hc. simpl. rewrite Hd. simpl.
    by eexists [_].
  - unfold select_subprotocol. run_handler. rewrite Hc. simpl.
    exists []. by rewrite app_nil_r.
Qed.

Lemma deliver_when_closed (cbs : list callback) (h : handler) :
  the_connection h = None ->
  exists log,
    effects (deliver' cbs h) = (effects h ++ log)%list /\
    nothing_on_connection log = true /\
    the_connection (deliver' cbs h) = None.
Proof.
  revert h. induction cbs as [|cb cbs IH]; intros h Hc; simpl.
  - exists []. by rewrite app_nil_r.
  - destruct (callback_when_closed cb h Hc) as (l1 & E1 & N1 & C1).
    destruct (IH _ C1) as (l2 & E2 & N2 & C2).
    exists (l1 ++ l2)%list. unfold deliver in *. simpl.
    rewrite E2, E1, <- app_assoc. split; [done|]. split; [|done].
    unfold nothing_on_connection in *. rewrite forallb_app. by rewrite N1, N2.
Qed.

Lemma deliver_when_open (cbs : list callback) (h : handler) (c : connection) :
  the_connection h = Some c ->
  disconnect c = Ok tt ->
  exists log,
    effects (deliver' cbs h) = (effects h ++ log)%list /\
    if existsb is_close cbs
    then the_connection (deliver' cbs h) = None /\
         exists before after,
           log = (before ++ CallDisconnect :: after)%list /\
           no_disconnect before = true /\
           nothing_on_connection after = true
    else the_connection (deliver' cbs h) = Some c /\ no_disconnect log = true.
Proof.
  intros Hc Hd. revert h Hc. induction cbs as [|cb cbs IH]; intros h Hc.
  - exists []. simpl. by rewrite app_nil_r.
  - destruct (callback_when_open cb h c Hc Hd) as (l1 & E1 & H1).
    change (deliver' (cb :: cbs) h) with (deliver' cbs (snd (run_callback' cb h))).
    simpl existsb. destruct (is_close cb); simpl.
    + destruct H1 as [-> C1].
      destruct (deliver_when_closed cbs _ C1) as (l2 & E2 & N2 & C2).
      exists (CallDisconnect :: l2). rewrite E2, E1, <- app_assoc.
      split; [done|]. split; [done|]. by exists [], l2.
    + destruct H1 as [N1 C1].
      destruct (IH _ C1) as (l2 & E2 & H2).
      exists (l1 ++ l2)%list. rewrite E2, E1, <- app_assoc. split; [done|].
      destruct (existsb is_close cbs).
      * destruct H2 as (C2 & before & after & -> & Nb & Na).
        split; [done|]. exists (l1 ++ before)%list, after.
        rewrite <- app_assoc. split; [done|]. split; [|done].
        unfold no_disconnect in *. rewrite forallb_app. by rewrite N1, Nb.
      * destruct H2 as [C2 N2]. split; [done|].
        unfold no_disconnect in *. rewrite forallb_app. by rewrite N1, N2.
Qed.

(** C8, amended. On a handler that holds its connection, and whose
    [disconnect] returns, whatever callbacks arrive and in whatever
    order, with [connect] succeeding or failing: [disconnect] is called
    exactly once if [on_close] is delivered, and not at all if it is
    not; it is called by [on_close] and by nothing else, so a failure
    of [connect] in [open] brings no [disconnect] by itself.  The
    connection is dropped by [on_close], and nothing is called on it
    after that call: no [connect], no relay of a frame, no second
    [disconnect]. *)
Theorem one_disconnect_per_connection
        (cbs : list callback) (h : handler) (c : connection) :
  the_connection h = Some c ->
  disconnect c = Ok tt ->
  exists log,
    effects (deliver' cbs h) = (effects h ++ log)%list /\
    count_disconnects log = (if existsb is_close cbs then 1 else 0)%nat /\
    nothing_on_connection (after_disconnect log) = true /\
    the_connection (deliver' cbs h)
      = (if existsb is_close cbs then None else Some c).
Proof.
  intros Hc Hd. destruct (deliver_when_open cbs h c Hc Hd) as (log & E & H).
  exists log. split; [done|].
  destruct (existsb is_close cbs).
  - destruct H as (C & before & after & -> & Nb & Na).
    rewrite count_disconnects_app, (count_disconnects_none _ Nb).
    change (CallDisconnect :: after) with ([CallDisconnect] ++ after)%list.
    rewrite count_disconnects_app,
      (count_disconnects_none _ (nothing_on_connection_no_disconnect _ Na)).
    split; [done|]. split; [|done].
    change ([CallDisconnect] ++ after)%list with (CallDisconnect :: after).
    by rewrite after_disconnect_split.
  - destruct H as [C N].
    rewrite (count_disconnects_none _ N), (after_disconnect_none _ N).
    by split.
Qed.

End Teardown.

(** * Further properties *)

(** ** Admission: [get] and [pre_get] beyond the refusals *)

(** A byte string that Python decodes as UTF-8. *)
Definition valid_utf8 (value : string) : bool :=
  match utf8_code_points value with
  | Some _ => true
  | None => false
  end.

(** [_get_arguments] returns exactly when every value of the name is
    valid UTF-8, and raises HTTPError 400 otherwise. *)
Lemma argument_texts_valid (values : list string) :
  if forallb valid_utf8 values
  then exists texts, argument_texts values = Ok texts
  else argument_texts values = Raise (HTTPError 400).
Proof.
  induction values as [|v values IH]; simpl; [by exists []|].
  unfold argument_text, decode_argument. unfold valid_utf8 at 1.
  destruct (utf8_code_points v) as [cps|]; simpl; [|done].
  destruct (forallb valid_utf8 values).
  - destruct IH as [texts ->]. simpl. by eexists.
  - by rewrite IH.
Qed.



(** [h] once [self.kernel_id] is [kid], [self.connection] is [conn] and the
    calls of [log] have been made. *)
Definition after_get (kid : string) (conn : option connection) (log : list effect)
    (h : handler) : handler :=
  Handler (current_user h) (is_authorized h) (get_kernel h)
    (kernel_websocket_connection_class h) (arguments h) (headers h)
    (Some kid) conn (effects h ++ log)%list.

(** Two handlers built field by field are the same. *)
Ltac same_handler :=
  f_equal; unfold after_get, add_effect, set_connection, set_kernel_id; simpl;
  repeat match goal with
         | H : current_user _ = _ |- _ => rewrite H
         | H : kernel_id _ = _ |- _ => rewrite H
         end;
  by rewrite <- ?app_assoc.

(** [get] is [pre_get] on the handler that knows its kernel id, and then
    the handshake when [pre_get] has returned. *)
Lemma get_pre_get (super_get : string -> M unit) (kid : string) (h : handler) :
  get super_get kid h =
    match pre_get (set_kernel_id (Some kid) h) with
    | (Ok _, h1) => super_get kid h1
    | (Raise e, h1) => (Raise e, h1)
    end.
Proof. reflexivity. Qed.


(** [pre_get] once the connection object is constructed, on a request
    with a [session_id] value that does not decode: [get_argument]
    raises at line 55, after the connection is stored. *)
Lemma pre_get_undecodable (h : handler) (u : user) (kid : string) (k : kernel)
      (conn0 : connection) (e : exn) :
  current_user h = Some u ->
  is_authorized h u "execute" "kernels" = true ->
  kernel_id h = Some kid ->
  get_kernel h kid = Ok k ->
  kernel_websocket_connection_class h k = Ok conn0 ->
  session_ids h = Raise e ->
  pre_get h =
    (Raise e,
     after_get kid (Some conn0)
       [CallIsAuthorized u "execute" "kernels"; CallGetKernel kid; CallConstruct k] h).
Proof.
  intros Hu Ha Hk Hg Hc Hs. unfold session_ids in Hs.
  unfold pre_get. run_handler.
  rewrite Hu. simpl. rewrite Ha. simpl. rewrite Hk. simpl. rewrite Hg. simpl.
  rewrite Hc. simpl. rewrite Hs. simpl. same_handler.
Qed.


Section Admission.

Variable super_get : string -> M unit.


(** X2. When the kernel manager does not give the kernel, or the
    connection class does not give a connection, [get] raises that very
    exception: [self.connection] is what it was before the request, the
    construction is not attempted after a failed lookup, nothing is
    called on a connection, and the handshake is not reached. *)
Theorem backend_failure_stops_admission
        (h : handler) (u : user) (kid : string) (e : exn) :
  current_user h = Some u ->
  is_authorized h u "execute" "kernels" = true ->
  get_kernel h kid = Raise e \/
  (exists k, get_kernel h kid = Ok k /\
             kernel_websocket_connection_class h k = Raise e) ->
  get super_get kid h =
    (Raise e,
     after_get kid (the_connection h)
       (CallIsAuthorized u "execute" "kernels" :: CallGetKernel kid ::
          match get_kernel h kid with
          | Ok k => [CallConstruct k]
          | Raise _ => []
          end) h).
Proof.
  intros Hu Ha H. rewrite get_pre_get.
  unfold pre_get. run_handler. rewrite Hu. simpl. rewrite Ha. simpl.
  destruct H as [Hg | (k & Hg & Hc)]; rewrite Hg; simpl.
  - same_handler.
  - rewrite Hc. simpl. same_handler.
Qed.


(** X15. A [session_id] value that is not valid UTF-8 stops the
    admission of a request that is authenticated and authorized and
    whose kernel and connection exist: [get] raises HTTPError 400, from
    [get_argument] at line 55.  The connection object is already
    constructed and stays on [self.connection]; no warning is logged,
    [prepare] is not called, and the handshake is not reached. *)
Theorem undecodable_session_id_rejected
        (h : handler) (u : user) (kid : string) (k : kernel) (conn0 : connection) :
  current_user h = Some u ->
  is_authorized h u "execute" "kernels" = true ->
  get_kernel h kid = Ok k ->
  kernel_websocket_connection_class h k = Ok conn0 ->
  forallb valid_utf8 (default [] (arguments h !! "session_id")) = false ->
  get super_get kid h =
    (Raise (HTTPError 400),
     after_get kid (Some conn0)
       [CallIsAuthorized u "execute" "kernels"; CallGetKernel kid; CallConstruct k] h).
Proof.
  intros Hu Ha Hg Hc Hv. rewrite get_pre_get.
  pose proof (argument_texts_valid (default [] (arguments h !! "session_id"))) as Hs.
  rewrite Hv in Hs.
  by rewrite (pre_get_undecodable (set_kernel_id (Some kid) h) u kid k conn0
                (HTTPError 400)).
Qed.

End Admission.


(** ** The interceptor on every shape of envelope *)

(** A second store under the same key replaces the first. *)
Lemma dict_set_set (key : string) (v w : value) (d : list (string * value)) :
  dict_set key v (dict_set key w d) = dict_set key v d.
Proof.
  induction d as [|[k u] d IH]; simpl.
  - by rewrite String.eqb_refl.
  - destruct (String.eqb k key) eqn:E; simpl; rewrite E; [done | by rewrite IH].
Qed.

(** What [on_message] forwards for a text [s] whose [try] block ends in
    [json.dumps] of [v]: the new text, or [s] when [json.dumps] raised. *)
Definition dumped_or (s : string) (r : result string) : frame :=
  match r with
  | Ok out => Text out
  | Raise _ => Text s
  end.

Section InterceptorCases.

Variable json_loads : string -> result value.
Variable json_dumps : value -> result string.
Variable repr_container : value -> result string.

#[local] Abbreviation rewrite_text' := (rewrite_text json_loads json_dumps repr_container).
#[local] Abbreviation intercept' := (intercept json_loads json_dumps repr_container).
#[local] Abbreviation on_message' := (on_message json_loads json_dumps repr_container).
#[local] Abbreviation deliver' := (deliver json_loads json_dumps repr_container).

Lemma intercept_dumped (hdrs : gmap string string) (s : string) (v : value) :
  rewrite_text' hdrs s = json_dumps v ->
  intercept' hdrs (Text s) = dumped_or s (json_dumps v).
Proof. intros H. unfold intercept, dumped_or. rewrite H. by destruct (json_dumps v). Qed.

(** The three ways through the [try] block: an exception before
    [json.dumps] is reached, which does not depend on the request; the
    serialization of the envelope as it was parsed; the serialization of
    the envelope with the statements spliced before its code. *)
Lemma rewrite_text_cases (s : string) :
  (exists e, forall hdrs, rewrite_text' hdrs s = Raise e) \/
  (exists m, json_loads s = Ok (JObj m) /\
             forall hdrs, rewrite_text' hdrs s = json_dumps (JObj m)) \/
  (exists m hdr content c text,
      json_loads s = Ok (JObj m) /\
      dict_get "header" m = Some (JObj hdr) /\
      dict_get "msg_type" hdr = Some (JStr "execute_request") /\
      dict_get "content" m = Some (JObj content) /\
      dict_get "code" content = Some c /\
      c <> JNull /\
      py_format repr_container c = Ok text /\
      forall hdrs,
        rewrite_text' hdrs s =
          json_dumps (JObj (with_code (injected (token_text hdrs) +:+ text) content m))).
Proof.
  destruct (json_loads s) as [v|e] eqn:Hs;
    [|left; exists e; intros hdrs; by apply rewrite_unparseable].
  destruct v as [| | | | | |m];
    try (left; exists AttributeError; intros hdrs;
         by apply (rewrite_not_object _ _ _ hdrs s _ Hs)).
  destruct (dict_get "header" m) as [header|] eqn:Hh.
  2: { right; left. exists m. split; [done|]. intros hdrs.
       unfold rewrite_text. rewrite Hs. simpl. by rewrite Hh. }
  destruct header as [| | | | | |hdr];
    try (left; exists AttributeError; intros hdrs;
         unfold rewrite_text; rewrite Hs; simpl; by rewrite Hh).
  destruct (dict_get "msg_type" hdr) as [t|] eqn:Ht.
  2: { right; left. exists m. split; [done|]. intros hdrs.
       unfold rewrite_text. rewrite Hs. simpl. rewrite Hh. simpl. by rewrite Ht. }
  destruct (py_eq_str t "execute_request") eqn:Et.
  2: { right; left. exists m. split; [done|]. intros hdrs.
       unfold rewrite_text. rewrite Hs. simpl. rewrite Hh. simpl. rewrite Ht. simpl.
       by rewrite Et. }
  assert (t = JStr "execute_request") as ->.
  { destruct t; try discriminate. simpl in Et. apply String.eqb_eq in Et. by subst. }
  destruct (dict_get "content" m) as [cv|] eqn:Hc.
  2: { right; left. exists m. split; [done|]. intros hdrs.
       unfold rewrite_text. rewrite Hs. simpl. rewrite Hh. simpl. rewrite Ht. simpl.
       by rewrite Hc. }
  destruct cv as [| | | | | |content];
    try (left; exists AttributeError; intros hdrs;
         unfold rewrite_text; rewrite Hs; simpl; rewrite Hh; simpl; rewrite Ht; simpl;
         by rewrite Hc).
  destruct (dict_get "code" content) as [c|] eqn:Hcode.
  2: { right; left. exists m. split; [done|]. intros hdrs.
       unfold rewrite_text. rewrite Hs. simpl. rewrite Hh. simpl. rewrite Ht. simpl.
       rewrite Hc. simpl. by rewrite Hcode. }
  destruct (is_not_None c) eqn:Hn.
  2: { right; left. exists m. split; [done|]. intros hdrs.
       unfold rewrite_text. rewrite Hs. simpl. rewrite Hh. simpl. rewrite Ht. simpl.
       rewrite Hc. simpl. rewrite Hcode. simpl. by rewrite Hn. }
  assert (c <> JNull) as Hnn by (intros ->; discriminate).
  destruct (py_format repr_container c) as [text|e] eqn:Hf.
  - right; right. exists m, hdr, content, c, text.
    repeat (split; [done|]). intros hdrs.
    by apply (rewrite_execute _ _ _ hdrs s m hdr content c text).
  - left. exists e. intros hdrs.
    unfold rewrite_text. rewrite Hs. simpl. rewrite Hh. simpl. rewrite Ht. simpl.
    rewrite Hc. simpl. rewrite Hcode. simpl. rewrite Hn.
    rewrite format_token. simpl. rewrite ?Hcode. simpl. by rewrite Hf.
Qed.

(** X7. The only change the interceptor ever makes to what a frame
    says is the code of an execute request.  For every frame, what is
    forwarded is the frame itself, or the serialization of the envelope
    exactly as it was parsed, or the serialization of the envelope with
    the statements spliced before the text of [content.code]; the last
    happens only when [header.msg_type] is [execute_request] and
    [content.code] is present and not null. *)
Theorem interceptor_changes_only_execute_code (hdrs : gmap string string) (f : frame) :
  intercept' hdrs f = f \/
  exists s m out,
    f = Text s /\
    json_loads s = Ok (JObj m) /\
    intercept' hdrs f = Text out /\
    (json_dumps (JObj m) = Ok out \/
     exists hdr content c text,
       dict_get "header" m = Some (JObj hdr) /\
       dict_get "msg_type" hdr = Some (JStr "execute_request") /\
       dict_get "content" m = Some (JObj content) /\
       dict_get "code" content = Some c /\
       c <> JNull /\
       py_format repr_container c = Ok text /\
       json_dumps (JObj (with_code (injected (token_text hdrs) +:+ text) content m))
         = Ok out).
Proof.
  destruct f as [s|b]; [|by left].
  destruct (rewrite_text_cases s)
    as [[e H] | [(m & Hs & H) | (m & hdr & content & c & text & Hs & Hh & Ht & Hc & Hcode & Hnn & Hf & H)]].
  - left. by apply intercept_raise with e.
  - rewrite (intercept_dumped hdrs s _ (H hdrs)).
    destruct (json_dumps (JObj m)) as [out|e] eqn:Hd; simpl; [|by left].
    right. exists s, m, out. auto.
  - rewrite (intercept_dumped hdrs s _ (H hdrs)).
    destruct (json_dumps (JObj (with_code _ content m))) as [out|e] eqn:Hd;
      simpl; [|by left].
    right. exists s, m, out. repeat (split; [done|]).
    right. by exists hdr, content, c, text.
Qed.

(** X8. The credential reaches nothing but the code of an execute
    request: two requests with any two sets of headers forward a frame
    identically, unless the frame is an envelope whose [header.msg_type]
    is [execute_request] and whose [content.code] is present and not
    null. *)
Theorem credential_reaches_only_execute_code
        (hdrs hdrs' : gmap string string) (f : frame) :
  intercept' hdrs f = intercept' hdrs' f \/
  exists s m hdr content c,
    f = Text s /\
    json_loads s = Ok (JObj m) /\
    dict_get "header" m = Some (JObj hdr) /\
    dict_get "msg_type" hdr = Some (JStr "execute_request") /\
    dict_get "content" m = Some (JObj content) /\
    dict_get "code" content = Some c /\
    c <> JNull.
Proof.
  destruct f as [s|b]; [|by left].
  destruct (rewrite_text_cases s)
    as [[e H] | [(m & Hs & H) | (m & hdr & content & c & text & Hs & Hh & Ht & Hc & Hcode & Hnn & Hf & H)]].
  - left. unfold intercept. by rewrite !H.
  - left. unfold intercept. by rewrite !H.
  - right. by exists s, m, hdr, content, c.
Qed.

(** X5. An execute request that carries no code (no [content], no
    [code] key, or a [code] that is null) is not rewritten: the envelope
    is serialized again as it was parsed, and the original text is
    forwarded when that serialization fails. *)
Theorem execute_request_without_code_kept
        (h : handler) (conn : connection) (s : string)
        (m hdr : list (string * value)) :
  the_connection h = Some conn ->
  json_loads s = Ok (JObj m) ->
  dict_get "header" m = Some (JObj hdr) ->
  dict_get "msg_type" hdr = Some (JStr "execute_request") ->
  dict_get "content" m = None \/
  (exists content,
      dict_get "content" m = Some (JObj content) /\
      (dict_get "code" content = None \/ dict_get "code" content = Some JNull)) ->
  on_message' (Text s) h = forwards conn (dumped_or s (json_dumps (JObj m))) h.
Proof.
  intros Hconn Hs Hh Ht H.
  rewrite (on_message_forwards _ _ _ h conn _ Hconn). f_equal.
  apply intercept_dumped.
  unfold rewrite_text. rewrite Hs. simpl. rewrite Hh. simpl. rewrite Ht. simpl.
  destruct H as [Hc | (content & Hc & [Hcode | Hcode])]; rewrite Hc; simpl;
    [done | by rewrite Hcode | by rewrite Hcode].
Qed.

(** X6. An envelope whose [header] is bound to something that is not
    an object, or an execute request whose [content] is bound to
    something that is not an object (null included), is forwarded byte
    for byte as it came: the AttributeError of [get] is swallowed before
    the text is replaced. *)
Theorem malformed_envelope_passes_through
        (h : handler) (conn : connection) (s : string) (m : list (string * value)) :
  the_connection h = Some conn ->
  json_loads s = Ok (JObj m) ->
  (exists v, dict_get "header" m = Some v /\ forall d, v <> JObj d) \/
  (exists hdr v,
      dict_get "header" m = Some (JObj hdr) /\
      dict_get "msg_type" hdr = Some (JStr "execute_request") /\
      dict_get "content" m = Some v /\ forall d, v <> JObj d) ->
  on_message' (Text s) h = forwards conn (Text s) h.
Proof.
  intros Hconn Hs H.
  rewrite (on_message_forwards _ _ _ h conn _ Hconn). f_equal.
  apply intercept_raise with AttributeError.
  unfold rewrite_text. rewrite Hs. simpl.
  destruct H as [(v & Hh & Hv) | (hdr & v & Hh & Ht & Hc & Hv)]; rewrite Hh; simpl.
  - destruct v; try reflexivity. by destruct (Hv fields).
  - rewrite Ht. simpl. rewrite Hc. simpl.
    destruct v; try reflexivity. by destruct (Hv fields).
Qed.

(** X13. The rewrite is keyed on [code] not being None, not on its
    truth value or its type: whatever non-null value [code] holds (an
    empty string, zero, false, a list), the forwarded envelope carries as
    [code] a string, the statements followed by [str] of that value; the
    original text is forwarded when the serialization fails. *)
Theorem execute_request_code_becomes_text
        (h : handler) (conn : connection) (s text : string)
        (m hdr content : list (string * value)) (c : value) :
  the_connection h = Some conn ->
  json_loads s = Ok (JObj m) ->
  dict_get "header" m = Some (JObj hdr) ->
  dict_get "msg_type" hdr = Some (JStr "execute_request") ->
  dict_get "content" m = Some (JObj content) ->
  dict_get "code" content = Some c ->
  c <> JNull ->
  py_format repr_container c = Ok text ->
  on_message' (Text s) h =
    forwards conn
      (dumped_or s
         (json_dumps
            (JObj (with_code (injected (token_text (headers h)) +:+ text) content m))))
      h.
Proof.
  intros Hconn Hs Hh Ht Hc Hcode Hnn Hf.
  rewrite (on_message_forwards _ _ _ h conn _ Hconn). f_equal.
  apply intercept_dumped.
  by apply (rewrite_execute _ _ _ (headers h) s m hdr content c text).
Qed.

(** X9. The rewrite is not idempotent: a frame that passes the
    interceptor twice (the codec reading back what it wrote) carries
    both assignments, the one of the second pass first and the one of
    the first pass next to the code, and is otherwise the envelope of a
    single pass. *)
Theorem rewrite_twice_stacks_statements
        (hdrs1 hdrs2 : gmap string string) (s src out1 : string)
        (m hdr content : list (string * value)) :
  json_loads s = Ok (JObj m) ->
  dict_get "header" m = Some (JObj hdr) ->
  dict_get "msg_type" hdr = Some (JStr "execute_request") ->
  dict_get "content" m = Some (JObj content) ->
  dict_get "code" content = Some (JStr src) ->
  json_dumps (JObj (with_code (injected (token_text hdrs1) +:+ src) content m))
    = Ok out1 ->
  json_loads out1
    = Ok (JObj (with_code (injected (token_text hdrs1) +:+ src) content m)) ->
  intercept' hdrs2 (intercept' hdrs1 (Text s)) =
    dumped_or out1
      (json_dumps
         (JObj (with_code
                  (injected (token_text hdrs2) +:+ injected (token_text hdrs1) +:+ src)
                  content m))).
Proof.
  intros Hs Hh Ht Hc Hcode Hd Hback.
  rewrite (intercept_ok _ _ _ hdrs1 s out1).
  2: { rewrite (rewrite_execute _ _ _ hdrs1 s m hdr content (JStr src) src);
         auto; discriminate. }
  apply intercept_dumped.
  rewrite (rewrite_execute _ _ _ hdrs2 out1 _ hdr
             (dict_set "code" (JStr (injected (token_text hdrs1) +:+ src)) content)
             (JStr (injected (token_text hdrs1) +:+ src))
             (injected (token_text hdrs1) +:+ src) Hback).
  - unfold with_code. by rewrite !dict_set_set.
  - unfold with_code. by rewrite dict_get_set_ne.
  - done.
  - unfold with_code. by rewrite dict_get_set_eq.
  - by rewrite dict_get_set_eq.
  - discriminate.
  - done.
Qed.

(** X4. On a handler that holds its connection, a sequence of frames
    reaches the connection one call per frame and in the order of
    arrival, each frame intercepted with the headers of the request:
    none is dropped, repeated or reordered, and the connection stays in
    place. *)
Theorem frames_forwarded_in_order (fs : list frame) (h : handler) (c : connection) :
  the_connection h = Some c ->
  effects (deliver' (map OnMessage fs) h) =
    (effects h ++ map (fun f => CallHandleIncoming (intercept' (headers h) f)) fs)%list /\
  the_connection (deliver' (map OnMessage fs) h) = Some c.
Proof.
  revert h. induction fs as [|f fs IH]; intros h Hc.
  - simpl. by rewrite app_nil_r.
  - change (deliver' (map OnMessage (f :: fs)) h)
      with (deliver' (map OnMessage fs) (snd (on_message' f h))).
    rewrite (on_message_forwards _ _ _ h c f Hc). unfold forwards. simpl snd.
    destruct (IH (add_effect (CallHandleIncoming (intercept' (headers h) f)) h) Hc)
      as [E C].
    rewrite E, C. simpl. by rewrite <- app_assoc.
Qed.

End InterceptorCases.

(** ** Negotiation and callbacks without a connection *)

(** X10. Whenever [select_subprotocol] selects a protocol, that
    protocol is one the client offered and is not the empty string; it
    is the preference of the connection, or the default when the
    connection has none; and the handler is unchanged. *)
Theorem selected_subprotocol_is_offered
        (h h' : handler) (offered : list string) (p : string) :
  select_subprotocol offered h = (Ok (Some p), h') ->
  p ∈ offered /\ p <> "" /\ h' = h /\
  exists c, the_connection h = Some c /\
            (kernel_ws_protocol c = Some p \/
             kernel_ws_protocol c = None /\ p = DEFAULT_PROTOCOL).
Proof.
  unfold select_subprotocol. run_handler.
  destruct (the_connection h) as [c|] eqn:Hc; [|simpl; discriminate].
  destruct (kernel_ws_protocol c) as [q|] eqn:Hq.
  - destruct (String.eqb q "") eqn:E; [simpl; discriminate|].
    rewrite py_in_elem_of. destruct (decide (q ∈ offered)) as [Hin|Hout].
    + rewrite bool_decide_eq_true_2 by done. intros [= <- <-].
      apply String.eqb_neq in E. repeat (split; [done|]). exists c. auto.
    + rewrite bool_decide_eq_false_2 by done. discriminate.
  - rewrite py_in_elem_of. destruct (decide (DEFAULT_PROTOCOL ∈ offered)) as [Hin|Hout].
    + rewrite bool_decide_eq_true_2 by done. intros [= <- <-].
      repeat (split; [done|]). exists c. auto.
    + rewrite bool_decide_eq_false_2 by done. discriminate.
Qed.

(** X11. The selection depends on the offered list only through
    membership: the order in which the client lists its protocols, and
    repetitions, do not matter. *)
Theorem select_subprotocol_ignores_order (h : handler) (l1 l2 : list string) :
  (forall p, p ∈ l1 <-> p ∈ l2) ->
  select_subprotocol l1 h = select_subprotocol l2 h.
Proof.
  intros Hl.
  assert (forall x, py_in x l1 = py_in x l2) as Hin.
  { intros [p|]; [|reflexivity]. rewrite !py_in_elem_of.
    apply bool_decide_ext, Hl. }
  unfold select_subprotocol. run_handler.
  destruct (the_connection h) as [c|]; [|reflexivity].
  by rewrite Hin.
Qed.

Section WithoutConnection.

Variable json_loads : string -> result value.
Variable json_dumps : value -> result string.
Variable repr_container : value -> result string.

#[local] Abbreviation run_callback' :=
  (run_callback json_loads json_dumps repr_container).

(** X12. On a handler without a connection (never admitted, or
    already closed) every callback raises AttributeError: a frame is not
    forwarded, [disconnect] and [connect] are not called, and the
    handler is left as it was, but for the line [open] logs before it
    looks for the connection. *)
Theorem callback_without_connection_raises (cb : callback) (h : handler) :
  the_connection h = None ->
  run_callback' cb h =
    (Raise AttributeError,
     match cb, kernel_id h with
     | Open, Some kid => add_effect (LogInfo ("Connecting to kernel " +:+ kid +:+ ".")) h
     | _, _ => h
     end).
Proof.
  intros Hc. destruct cb as [|f| |l]; simpl.
  - unfold open. run_handler. destruct (kernel_id h) as [kid|]; simpl; [|done].
    by rewrite Hc.
  - unfold on_message. run_handler. rewrite Hc. by destruct (kernel_id h).
  - unfold on_close. run_handler. rewrite Hc. by destruct (kernel_id h).
  - unfold select_subprotocol. run_handler. rewrite Hc. by destruct (kernel_id h).
Qed.

End WithoutConnection.

(** * The properties on concrete requests

    The runtime is the reference codec, the handler an admitted one whose
    request carries the credential [TOK]. *)

(** [dq s] is [s] with every apostrophe turned into a double quote: JSON
    texts are written down with apostrophes below. *)
Fixpoint dq (s : string) : string :=
  match s with
  | "" => ""
  | String c rest =>
      String (if Ascii.eqb c "'" then PyJson.chr 34 else c) (dq rest)
  end.

(** [s] ends with [suffix]. *)
Fixpoint ends_with (suffix s : string) : bool :=
  String.eqb s suffix ||
  match s with
  | String _ rest => ends_with suffix rest
  | "" => false
  end.

Definition a_connection : connection :=
  Connection (Kernel "k1") "constructed" None None (Ok tt) (fun _ => Ok tt) (Ok tt).

Definition a_request : handler :=
  Handler (Some (User "alice")) (fun _ _ _ => true) (fun id => Ok (Kernel id))
    (fun k => Ok (Connection k "constructed" None None (Ok tt) (fun _ => Ok tt) (Ok tt)))
    ∅ {[ TOKEN_HEADER := "TOK" ]} (Some "k1") None [].

Definition an_admitted_handler : handler :=
  set_connection (Some a_connection) a_request.

Definition execute_frame : string :=
  dq "{'header':{'msg_type':'execute_request'},'content':{'code':'print(1)'}}".

Definition execute_frame_rewritten : string :=
  dq "{'header': {'msg_type': 'execute_request'}, 'content': {'code': '"
    +:+ "import os\nos.environ['FORWARDED_ACCESS_TOKEN'] = 'TOK'\nprint(1)"
    +:+ dq "'}}".

Lemma ends_with_app (a b : string) : ends_with b (a +:+ b) = true.
Proof.
  induction a as [|x a IH].
  - destruct b; simpl; by rewrite ?String.eqb_refl, ?Ascii.eqb_refl.
  - change (String x a +:+ b) with (String x (a +:+ b)).
    simpl. rewrite IH. apply orb_true_r.
Qed.

Lemma execute_request_rewritten_witness :
  on_message PyJson.loads PyJson.dumps PyJson.repr_container
    (Text execute_frame) an_admitted_handler
  = forwards a_connection (Text execute_frame_rewritten) an_admitted_handler.
Proof.
  refine (proj1 (execute_request_rewritten
                   PyJson.loads PyJson.dumps PyJson.repr_container
                   an_admitted_handler a_connection
                   execute_frame "print(1)" execute_frame_rewritten
                   [("header", JObj [("msg_type", JStr "execute_request")]);
                    ("content", JObj [("code", JStr "print(1)")])]
                   [("msg_type", JStr "execute_request")]
                   [("code", JStr "print(1)")]
                   _ _ _ _ _ _ _));
    vm_compute; reflexivity.
Defined.

(** The claim C1 as it stands fails on a code that is no string: the
    JSON literal [true] is spliced as Python writes it, [True], so the
    forwarded code does not end with the original code text. *)
Lemma execute_request_code_not_verbatim :
  exists code',
    on_message PyJson.loads PyJson.dumps PyJson.repr_container
      (Text (dq "{'header':{'msg_type':'execute_request'},'content':{'code':true}}"))
      an_admitted_handler
    = forwards a_connection
        (Text (dq "{'header': {'msg_type': 'execute_request'}, 'content': {'code': '"
                 +:+ "import os\nos.environ['FORWARDED_ACCESS_TOKEN'] = 'TOK'\nTrue"
                 +:+ dq "'}}"))
        an_admitted_handler /\
    (message ← PyJson.loads
                 (dq "{'header': {'msg_type': 'execute_request'}, 'content': {'code': '"
                    +:+ "import os\nos.environ['FORWARDED_ACCESS_TOKEN'] = 'TOK'\nTrue"
                    +:+ dq "'}}");
     content ← py_getitem message "content";
     py_getitem content "code") = Ok (JStr code') /\
    code' = injected "TOK" +:+ "True" /\
    ~ (exists statements, code' = statements +:+ String "010" "true").
Proof.
  exists (injected "TOK" +:+ "True").
  split; [vm_compute; reflexivity|].
  split; [vm_compute; reflexivity|].
  split; [reflexivity|].
  intros [statements H].
  pose proof (ends_with_app statements (String "010" "true")) as E.
  rewrite <- H in E. vm_compute in E. discriminate.
Qed.

Lemma unauthenticated_or_unauthorized_rejected_witness :
  exists e,
    get (fun _ => mret tt) "k1"
        (Handler None (fun _ _ _ => true) (fun id => Ok (Kernel id))
           (fun k => Ok a_connection) ∅ ∅ None None [])
    = (Raise (HTTPError 403),
       Handler None (fun _ _ _ => true) (fun id => Ok (Kernel id))
         (fun k => Ok a_connection) ∅ ∅ (Some "k1") None [e]) /\
    touches_backend e = false.
Proof.
  destruct (unauthenticated_or_unauthorized_rejected
              (fun _ => mret tt)
              (Handler None (fun _ _ _ => true) (fun id => Ok (Kernel id))
                 (fun k => Ok a_connection) ∅ ∅ None None [])
              "k1" (or_introl eq_refl)) as (e & Hget & _ & Hb & _).
  exists e. split; [exact Hget | exact Hb].
Defined.

Lemma select_subprotocol_spec_witness :
  select_subprotocol [DEFAULT_PROTOCOL] an_admitted_handler
  = (Ok (Some DEFAULT_PROTOCOL), an_admitted_handler).
Proof.
  exact (select_subprotocol_spec an_admitted_handler a_connection
           [DEFAULT_PROTOCOL] eq_refl).
Defined.

(** The claim C4 as it stands fails on the bytes: the content [{"a":1}]
    of a [kernel_info_request] leaves as [{"a": 1}], the same value in
    another text. *)
Lemma other_message_content_bytes_differ :
  on_message PyJson.loads PyJson.dumps PyJson.repr_container
    (Text (dq "{'header': {'msg_type': 'kernel_info_request'}, 'content': "
             +:+ dq "{'a':1}" +:+ "}"))
    an_admitted_handler
  = forwards a_connection
      (Text (dq "{'header': {'msg_type': 'kernel_info_request'}, 'content': "
               +:+ dq "{'a': 1}" +:+ "}"))
      an_admitted_handler /\
  dq "{'a':1}" <> dq "{'a': 1}" /\
  PyJson.loads (dq "{'a':1}") = Ok (JObj [("a", JInt 1)]) /\
  PyJson.loads (dq "{'a': 1}") = Ok (JObj [("a", JInt 1)]).
Proof.
  split; [vm_compute; reflexivity|].
  split; [vm_compute; discriminate|].
  split; vm_compute; reflexivity.
Qed.

Lemma other_message_content_kept_witness :
  exists out,
    on_message PyJson.loads PyJson.dumps PyJson.repr_container
      (Text (dq "{'header':{'msg_type':'kernel_info_request'},'content':{'a':1}}"))
      an_admitted_handler
    = forwards a_connection (Text out) an_admitted_handler /\
    (out = dq "{'header':{'msg_type':'kernel_info_request'},'content':{'a':1}}" \/
     PyJson.dumps (JObj [("header", JObj [("msg_type", JStr "kernel_info_request")]);
                         ("content", JObj [("a", JInt 1)])]) = Ok out).
Proof.
  apply (other_message_content_kept
           PyJson.loads PyJson.dumps PyJson.repr_container
           an_admitted_handler a_connection
           (dq "{'header':{'msg_type':'kernel_info_request'},'content':{'a':1}}")
           [("header", JObj [("msg_type", JStr "kernel_info_request")]);
            ("content", JObj [("a", JInt 1)])]).
  - reflexivity.
  - vm_compute. reflexivity.
  - intros hdr [= <-]. vm_compute. discriminate.
Defined.

Lemma passthrough_binary_or_unparseable_witness :
  PyJson.loads (dq "{'header': ") = Raise JSONDecodeError /\
  on_message PyJson.loads PyJson.dumps PyJson.repr_container
    (Text (dq "{'header': ")) an_admitted_handler
  = forwards a_connection (Text (dq "{'header': ")) an_admitted_handler.
Proof.
  split; [vm_compute; reflexivity|].
  apply (passthrough_binary_or_unparseable
           PyJson.loads PyJson.dumps PyJson.repr_container
           an_admitted_handler a_connection (Text (dq "{'header': "))).
  - reflexivity.
  - intros s [= <-]. exists JSONDecodeError. vm_compute. reflexivity.
Defined.

Lemma passthrough_not_object_witness :
  PyJson.loads "[1, 2]" = Ok (JArr [JInt 1; JInt 2]) /\
  on_message PyJson.loads PyJson.dumps PyJson.repr_container
    (Text "[1, 2]") an_admitted_handler
  = forwards a_connection (Text "[1, 2]") an_admitted_handler.
Proof.
  split; [vm_compute; reflexivity|].
  apply (passthrough_not_object
           PyJson.loads PyJson.dumps PyJson.repr_container
           an_admitted_handler a_connection "[1, 2]" (JArr [JInt 1; JInt 2])).
  - reflexivity.
  - vm_compute. reflexivity.
  - discriminate.
Defined.


Definition a_handler_without_token : handler :=
  Handler (Some (User "alice")) (fun _ _ _ => true) (fun id => Ok (Kernel id))
    (fun k => Ok a_connection) ∅ ∅ (Some "k1") (Some a_connection) [].

Lemma absent_token_sentinel_witness :
  on_message PyJson.loads PyJson.dumps PyJson.repr_container
    (Text execute_frame) a_handler_without_token
  = forwards a_connection
      (Text (dq "{'header': {'msg_type': 'execute_request'}, 'content': {'code': '"
               +:+ "import os\nos.environ['FORWARDED_ACCESS_TOKEN'] = 'None'\nprint(1)"
               +:+ dq "'}}"))
      a_handler_without_token.
Proof.
  refine (proj1 (absent_token_sentinel
                   PyJson.loads PyJson.dumps PyJson.repr_container
                   a_handler_without_token a_connection
                   execute_frame "print(1)" _
                   [("header", JObj [("msg_type", JStr "execute_request")]);
                    ("content", JObj [("code", JStr "print(1)")])]
                   [("msg_type", JStr "execute_request")]
                   [("code", JStr "print(1)")]
                   (JStr "print(1)")
                   _ _ _ _ _ _ _ _ _ _));
    try discriminate; vm_compute; reflexivity.
Defined.

Lemma one_disconnect_per_connection_witness :
  exists log,
    effects (deliver PyJson.loads PyJson.dumps PyJson.repr_container
               [Open; OnMessage (Text "[1, 2]"); OnClose; OnMessage (Text "[1, 2]");
                Open; OnClose]
               an_admitted_handler)
    = (effects an_admitted_handler ++ log)%list /\
    count_disconnects log = 1%nat /\
    nothing_on_connection (after_disconnect log) = true.
Proof.
  destruct (one_disconnect_per_connection
              PyJson.loads PyJson.dumps PyJson.repr_container
              [Open; OnMessage (Text "[1, 2]"); OnClose; OnMessage (Text "[1, 2]");
               Open; OnClose]
              an_admitted_handler a_connection eq_refl eq_refl)
    as (log & E & C & N & _).
  exists log. split; [exact E|]. split; [exact C | exact N].
Defined.

Definition a_handler_that_cannot_connect : handler :=
  set_connection
    (Some (Connection (Kernel "k1") "constructed" None None
             (Raise (LibraryError "RuntimeError")) (fun _ => Ok tt) (Ok tt)))
    a_request.

(** The claim C8 as it stands fails on a connect failure: [open] lets
    the exception of [connect] through and calls nothing else.  No
    [disconnect] is made, and the connection object stays on [self]; the
    one place that calls [disconnect] is [on_close], which tornado does
    not deliver after [open] has raised. *)
Lemma connect_failure_makes_no_disconnect :
  open "k1" a_handler_that_cannot_connect
  = (Raise (LibraryError "RuntimeError"),
     add_effect CallConnect
       (add_effect (LogInfo "Connecting to kernel k1.") a_handler_that_cannot_connect)) /\
  effects (snd (open "k1" a_handler_that_cannot_connect))
  = [LogInfo "Connecting to kernel k1."; CallConnect] /\
  count_disconnects (effects (snd (open "k1" a_handler_that_cannot_connect))) = 0%nat /\
  the_connection (snd (open "k1" a_handler_that_cannot_connect))
  = the_connection a_handler_that_cannot_connect /\
  effects (deliver PyJson.loads PyJson.dumps PyJson.repr_container [Open]
             a_handler_that_cannot_connect)
  = [LogInfo "Connecting to kernel k1."; CallConnect].
Proof. repeat split; vm_compute; reflexivity. Qed.



(** ** Further runs *)

Definition a_handler_preferring (p : option string) : handler :=
  set_connection (Some (Connection (Kernel "k1") "constructed" p None (Ok tt) (fun _ => Ok tt) (Ok tt))) a_request.

(** An empty preference selects nothing, whatever is offered; so does a
    preference that is not offered. *)
Example select_subprotocol_no_preference :
  fst (select_subprotocol [DEFAULT_PROTOCOL; ""] (a_handler_preferring (Some ""))) = Ok None /\
  fst (select_subprotocol [DEFAULT_PROTOCOL] (a_handler_preferring (Some "x"))) = Ok None /\
  fst (select_subprotocol ["x"; DEFAULT_PROTOCOL] (a_handler_preferring (Some "x")))
    = Ok (Some "x").
Proof. repeat split. Qed.

(** After a failure of [connect] the connection is still held: an
    [on_close], were one delivered, would disconnect it. *)
Example failed_connect_then_close :
  run_callback PyJson.loads PyJson.dumps PyJson.repr_container Open
    a_handler_that_cannot_connect
  = (Raise (LibraryError "RuntimeError"),
     add_effect CallConnect
       (add_effect (LogInfo "Connecting to kernel k1.") a_handler_that_cannot_connect)) /\
  effects (deliver PyJson.loads PyJson.dumps PyJson.repr_container [Open; OnClose]
             a_handler_that_cannot_connect)
  = [LogInfo "Connecting to kernel k1."; CallConnect; CallDisconnect].
Proof. split; vm_compute; reflexivity. Qed.

(** A second [on_close], or a frame after the close, finds no connection
    and raises; nothing reaches the connection that was dropped. *)
Example callbacks_after_close :
  fst (on_close (snd (on_close an_admitted_handler))) = Raise AttributeError /\
  fst (on_message PyJson.loads PyJson.dumps PyJson.repr_container (Text "[1, 2]")
         (snd (on_close an_admitted_handler))) = Raise AttributeError /\
  effects (snd (on_message PyJson.loads PyJson.dumps PyJson.repr_container
                  (Text "[1, 2]") (snd (on_close an_admitted_handler))))
  = [CallDisconnect].
Proof. repeat split. Qed.

(** A non-empty [session_id] is stored on the connection, stripped and
    without a warning; one that is white space only is treated as
    absent. *)
Example session_id_is_stored :
  the_connection
    (snd (pre_get (set_arguments {[ "session_id" := ["s1"; " s2 "] ]} a_request)))
  = Some (Connection (Kernel "k1") "s2" None None (Ok tt) (fun _ => Ok tt) (Ok tt)) /\
  effects (snd (pre_get (set_arguments {[ "session_id" := ["s1"; " s2 "] ]} a_request)))
  = [CallIsAuthorized (User "alice") "execute" "kernels"; CallGetKernel "k1";
     CallConstruct (Kernel "k1")] /\
  the_connection
    (snd (pre_get (set_arguments {[ "session_id" := [" "] ]} a_request)))
  = Some a_connection /\
  effects (snd (pre_get (set_arguments {[ "session_id" := [" "] ]} a_request)))
  = [CallIsAuthorized (User "alice") "execute" "kernels"; CallGetKernel "k1";
     CallConstruct (Kernel "k1"); LogWarning "No session ID specified"].
Proof. repeat split; vm_compute; reflexivity. Qed.

(** A connection whose [handle_incoming_message] raises: the exception
    leaves [on_message], after the call is made. *)
Definition a_connection_that_cannot_relay : connection :=
  Connection (Kernel "k1") "constructed" None None (Ok tt)
    (fun _ => Raise (LibraryError "RuntimeError")) (Ok tt).

Example relay_failure_leaves_on_message :
  on_message PyJson.loads PyJson.dumps PyJson.repr_container (Text "[1, 2]")
    (set_connection (Some a_connection_that_cannot_relay) a_request)
  = (Raise (LibraryError "RuntimeError"),
     add_effect (CallHandleIncoming (Text "[1, 2]"))
       (set_connection (Some a_connection_that_cannot_relay) a_request)).
Proof. vm_compute. reflexivity. Qed.

(** The codec on a few texts: numbers, escapes, a repeated key. *)
Example codec_round_trips :
  (v ← PyJson.loads (dq "{'a': [1.50, -0.0, 1e22, 1E400, 0.1e-6], 'b': null, 'a': true}");
   PyJson.dumps v) = Ok (dq "{'a': true, 'b': null}") /\
  (v ← PyJson.loads (dq "[1.50, -0.0, 1e22, 1E400, 0.1e-6, 12345678901234567890]");
   PyJson.dumps v)
  = Ok "[1.5, -0.0, 1e+22, Infinity, 1e-07, 12345678901234567890]" /\
  (v ← PyJson.loads (dq "['\u00E9\n\uD83D\uDE00\/']"); PyJson.dumps v)
  = Ok (dq "['\u00e9\n\ud83d\ude00/']") /\
  PyJson.loads (dq "{'a': 1,}") = Raise JSONDecodeError /\
  PyJson.loads "01" = Raise JSONDecodeError.
Proof. repeat split; vm_compute; reflexivity. Qed.

(** ** The further properties on concrete requests *)



(** A request whose kernel the kernel manager does not know. *)
Definition a_request_for_no_kernel : handler :=
  Handler (Some (User "alice")) (fun _ _ _ => true) (fun _ => Raise KeyError)
    (fun k => Ok a_connection) ∅ ∅ None None [].

Lemma backend_failure_stops_admission_witness :
  get (fun _ => mret tt) "k9" a_request_for_no_kernel
  = (Raise KeyError,
     after_get "k9" None
       [CallIsAuthorized (User "alice") "execute" "kernels"; CallGetKernel "k9"]
       a_request_for_no_kernel).
Proof.
  exact (backend_failure_stops_admission (fun _ => mret tt)
           a_request_for_no_kernel (User "alice") "k9" KeyError
           eq_refl eq_refl (or_introl eq_refl)).
Defined.




(** A request whose [session_id] is the single byte FF. *)
Definition a_request_with_undecodable_session : handler :=
  set_arguments {[ "session_id" := [String (byte_of_value 255) ""] ]} a_request.

Lemma undecodable_session_id_rejected_witness :
  get (fun _ => mret tt) "k1" a_request_with_undecodable_session
  = (Raise (HTTPError 400),
     after_get "k1" (Some a_connection)
       [CallIsAuthorized (User "alice") "execute" "kernels"; CallGetKernel "k1";
        CallConstruct (Kernel "k1")]
       a_request_with_undecodable_session).
Proof.
  exact (undecodable_session_id_rejected (fun _ => mret tt)
           a_request_with_undecodable_session (User "alice") "k1" (Kernel "k1")
           a_connection eq_refl eq_refl eq_refl eq_refl eq_refl).
Defined.

Lemma frames_forwarded_in_order_witness :
  effects (deliver PyJson.loads PyJson.dumps PyJson.repr_container
             (map OnMessage [Text "[1, 2]"; Binary []; Text execute_frame])
             an_admitted_handler)
  = [CallHandleIncoming (Text "[1, 2]"); CallHandleIncoming (Binary []);
     CallHandleIncoming (Text execute_frame_rewritten)].
Proof.
  refine (eq_trans
            (proj1 (frames_forwarded_in_order
                      PyJson.loads PyJson.dumps PyJson.repr_container
                      [Text "[1, 2]"; Binary []; Text execute_frame]
                      an_admitted_handler a_connection eq_refl)) _).
  vm_compute. reflexivity.
Defined.

Lemma execute_request_without_code_kept_witness :
  on_message PyJson.loads PyJson.dumps PyJson.repr_container
    (Text (dq "{'header':{'msg_type':'execute_request'},'content':{'code':null}}"))
    an_admitted_handler
  = forwards a_connection
      (Text (dq "{'header': {'msg_type': 'execute_request'}, 'content': {'code': null}}"))
      an_admitted_handler.
Proof.
  refine (eq_trans
            (execute_request_without_code_kept
               PyJson.loads PyJson.dumps PyJson.repr_container
               an_admitted_handler a_connection
               (dq "{'header':{'msg_type':'execute_request'},'content':{'code':null}}")
               [("header", JObj [("msg_type", JStr "execute_request")]);
                ("content", JObj [("code", JNull)])]
               [("msg_type", JStr "execute_request")]
               eq_refl _ eq_refl eq_refl
               (or_intror (ex_intro _ [("code", JNull)]
                             (conj eq_refl (or_intror eq_refl)))))
            _);
    vm_compute; reflexivity.
Defined.

Lemma malformed_envelope_passes_through_witness :
  on_message PyJson.loads PyJson.dumps PyJson.repr_container
    (Text (dq "{'header':{'msg_type':'execute_request'},'content':null}"))
    an_admitted_handler
  = forwards a_connection
      (Text (dq "{'header':{'msg_type':'execute_request'},'content':null}"))
      an_admitted_handler.
Proof.
  apply (malformed_envelope_passes_through
           PyJson.loads PyJson.dumps PyJson.repr_container
           an_admitted_handler a_connection
           (dq "{'header':{'msg_type':'execute_request'},'content':null}")
           [("header", JObj [("msg_type", JStr "execute_request")]);
            ("content", JNull)]).
  - reflexivity.
  - vm_compute. reflexivity.
  - right. exists [("msg_type", JStr "execute_request")], JNull.
    repeat split; discriminate.
Defined.

Lemma execute_request_code_becomes_text_witness :
  on_message PyJson.loads PyJson.dumps PyJson.repr_container
    (Text (dq "{'header':{'msg_type':'execute_request'},'content':{'code':0}}"))
    an_admitted_handler
  = forwards a_connection
      (Text (dq "{'header': {'msg_type': 'execute_request'}, 'content': {'code': '"
               +:+ "import os\nos.environ['FORWARDED_ACCESS_TOKEN'] = 'TOK'\n0"
               +:+ dq "'}}"))
      an_admitted_handler.
Proof.
  refine (eq_trans
            (execute_request_code_becomes_text
               PyJson.loads PyJson.dumps PyJson.repr_container
               an_admitted_handler a_connection
               (dq "{'header':{'msg_type':'execute_request'},'content':{'code':0}}")
               "0"
               [("header", JObj [("msg_type", JStr "execute_request")]);
                ("content", JObj [("code", JInt 0)])]
               [("msg_type", JStr "execute_request")]
               [("code", JInt 0)] (JInt 0)
               eq_refl _ eq_refl eq_refl eq_refl eq_refl _ _)
            _);
    try discriminate; vm_compute; reflexivity.
Defined.

Lemma rewrite_twice_stacks_statements_witness :
  intercept PyJson.loads PyJson.dumps PyJson.repr_container {[ TOKEN_HEADER := "B" ]}
    (intercept PyJson.loads PyJson.dumps PyJson.repr_container {[ TOKEN_HEADER := "A" ]}
       (Text execute_frame))
  = Text (dq "{'header': {'msg_type': 'execute_request'}, 'content': {'code': '"
            +:+ "import os\nos.environ['FORWARDED_ACCESS_TOKEN'] = 'B'\n"
            +:+ "import os\nos.environ['FORWARDED_ACCESS_TOKEN'] = 'A'\nprint(1)"
            +:+ dq "'}}").
Proof.
  refine (eq_trans
            (rewrite_twice_stacks_statements
               PyJson.loads PyJson.dumps PyJson.repr_container
               {[ TOKEN_HEADER := "A" ]} {[ TOKEN_HEADER := "B" ]}
               execute_frame "print(1)"
               (dq "{'header': {'msg_type': 'execute_request'}, 'content': {'code': '"
                  +:+ "import os\nos.environ['FORWARDED_ACCESS_TOKEN'] = 'A'\nprint(1)"
                  +:+ dq "'}}")
               [("header", JObj [("msg_type", JStr "execute_request")]);
                ("content", JObj [("code", JStr "print(1)")])]
               [("msg_type", JStr "execute_request")]
               [("code", JStr "print(1)")]
               _ eq_refl eq_refl eq_refl eq_refl _ _)
            _);
    vm_compute; reflexivity.
Defined.

Lemma selected_subprotocol_is_offered_witness :
  DEFAULT_PROTOCOL ∈ ["x"; DEFAULT_PROTOCOL] /\ DEFAULT_PROTOCOL <> "".
Proof.
  destruct (selected_subprotocol_is_offered
              an_admitted_handler an_admitted_handler
              ["x"; DEFAULT_PROTOCOL] DEFAULT_PROTOCOL eq_refl)
    as (Hin & Hne & _).
  split; [exact Hin | exact Hne].
Defined.

Lemma select_subprotocol_ignores_order_witness :
  select_subprotocol ["x"; DEFAULT_PROTOCOL] an_admitted_handler
  = select_subprotocol [DEFAULT_PROTOCOL; "x"; "x"] an_admitted_handler.
Proof.
  apply (select_subprotocol_ignores_order an_admitted_handler
           ["x"; DEFAULT_PROTOCOL] [DEFAULT_PROTOCOL; "x"; "x"]).
  intros p. rewrite !elem_of_cons, !elem_of_nil. tauto.
Defined.

Lemma callback_without_connection_raises_witness :
  run_callback PyJson.loads PyJson.dumps PyJson.repr_container
    (OnMessage (Text execute_frame)) a_request
  = (Raise AttributeError, a_request) /\
  run_callback PyJson.loads PyJson.dumps PyJson.repr_container Open a_request
  = (Raise AttributeError, add_effect (LogInfo "Connecting to kernel k1.") a_request).
Proof.
  split.
  - exact (callback_without_connection_raises
             PyJson.loads PyJson.dumps PyJson.repr_container
             (OnMessage (Text execute_frame)) a_request eq_refl).
  - exact (callback_without_connection_raises
             PyJson.loads PyJson.dumps PyJson.repr_container
             Open a_request eq_refl).
Defined.
